(** * MarketSight: the market analysis and anomaly detection engine

    A shallow embedding of [analysis/analyze.py] (the statistical engine) and
    [analysis/analyze_ml.py] (the model-residual engine), with the part of the
    relational store they read and write.

    Conventions of the embedding.
    - A numeric cell of a data frame is an [option Q]: [None] is pandas'
      NaN / SQL NULL (what [pd.isna] tests), [Some q] the rational the cell
      holds.  The quotients and aggregates of pandas are given by their exact
      value.  Where the code compares a cell with a bound it computes itself
      ([flag_row]), the bound is computed as Python computes it, in binary64
      with rounding to nearest, ties to even ([Float64.round64]).
    - An instant is a [Z], the microseconds since the epoch of the naive UTC
      [datetime] returned by [datetime.utcnow()].  The clock is an input of a
      run: [now i] is the value of the [i]-th call of [datetime.utcnow()].
    - A comparison written in SQL is evaluated by the database.  The store
      carries the one whose outcome depends on the schema
      ([scrape_timestamp >= :since], see [Store.timestamp_ge]).
    - A table is the list of its rows in insertion order; surrogate row ids
      are not modelled, and columns the analysis never reads are left out. *)

From Stdlib Require Import ZArith QArith Qabs Qminmax Qround Qpower String List Bool Lia Lqa.
Import ListNotations.

Set Implicit Arguments.
Local Open Scope Q_scope.

(** ** Numbers, cells and the pandas aggregates *)

Module Pandas.

(** [x < y] on exact numbers, as a boolean. *)
Definition Qltb (x y : Q) : bool := negb (Qle_bool y x).

(** A comparison [cell > c] of a frame column: false on a missing cell. *)
Definition cell_gt (c : option Q) (bound : Q) : bool :=
  match c with
  | Some x => Qltb bound x
  | None => false
  end.

(** [pd.isna]. *)
Definition isna {A} (c : option A) : bool :=
  match c with
  | Some _ => false
  | None => true
  end.

(** The values of a column that are not missing, in row order. *)
Definition dropna (xs : list (option Q)) : list Q :=
  flat_map (fun c => match c with Some x => [x] | None => [] end) xs.

(** The sum of a column, kept in lowest terms. *)
Definition Qsum (xs : list Q) : Q := Qred (fold_left Qplus xs 0).

Definition Qnat (n : nat) : Q := inject_Z (Z.of_nat n).

(** ['count']: the number of values that are not missing. *)
Definition agg_count (xs : list (option Q)) : nat := length (dropna xs).

(** ['mean']: missing values are skipped; NaN for a group without values. *)
Definition agg_mean (xs : list (option Q)) : option Q :=
  let v := dropna xs in
  match v with
  | [] => None
  | _ => Some (Qred (Qsum v / Qnat (length v)))
  end.

Section Std.
(** The square root used by the sample standard deviation.  No property
    below depends on its value, so the engine is stated for any such
    function. *)
Variable sqrtQ : Q -> Q.

(** ['std'] (ddof = 1): NaN for a group with fewer than two values. *)
Definition agg_std (xs : list (option Q)) : option Q :=
  let v := dropna xs in
  if (length v <? 2)%nat then None
  else
    let m := Qred (Qsum v / Qnat (length v)) in
    Some (sqrtQ (Qred (Qsum (map (fun x => (x - m) * (x - m)) v)
                       / Qnat (length v - 1)))).
End Std.

(** A square root for worked examples: exact whenever the argument is the
    square of a rational with at most six decimals, rounded down otherwise. *)
Definition Qsqrt (q : Q) : Q :=
  Qred (Z.sqrt (Qnum q * Z.pos (Qden q) * 1000000000000)
        # (Qden q * 1000000)).

(** Insertion into a list sorted by [leb]. *)
Fixpoint insert_sorted {A} (leb : A -> A -> bool) (x : A) (l : list A) : list A :=
  match l with
  | [] => [x]
  | h :: t => if leb x h then x :: l else h :: insert_sorted leb x t
  end.

Definition sort_values {A} (leb : A -> A -> bool) (l : list A) : list A :=
  fold_right (insert_sorted leb) [] l.

(** [Series.median]: missing values are skipped; NaN when nothing is left. *)
Definition median (xs : list (option Q)) : option Q :=
  let v := sort_values Qle_bool (dropna xs) in
  let n := length v in
  match v with
  | [] => None
  | _ =>
      if Nat.even n
      then Some ((nth (n / 2 - 1) v 0 + nth (n / 2) v 0) / 2)
      else Some (nth (n / 2) v 0)
  end.

(** [Series.fillna value]; filling with NaN leaves the column as it is. *)
Definition fillna (c : option Q) (value : option Q) : option Q :=
  match c with
  | Some x => Some x
  | None => value
  end.

End Pandas.

(** ** Binary64 arithmetic

    Python's [float] and numpy's [float64]: every operation returns the
    exact result rounded to the nearest number with a 53-bit significand,
    ties to the even significand, on the exponent range of binary64 (so
    that the numbers below 2^-1022 are spaced 2^-1074 apart).  Overflow to
    infinity is not modelled: the magnitudes are taken below 2^1024. *)

Module Float64.
Import Pandas.

(** The nearest integer, ties to even. *)
Definition round_half_even (q : Q) : Z :=
  let f := Qfloor q in
  let r := q - inject_Z f in
  if Qltb r (1 # 2) then f
  else if Qltb (1 # 2) r then (f + 1)%Z
  else if Z.even f then f else (f + 1)%Z.

(** The integer part of the binary logarithm of a positive number. *)
Definition ilog2 (q : Q) : Z :=
  let k := (Z.log2 (Qnum q) - Z.log2 (Z.pos (Qden q)))%Z in
  if Qle_bool (2 ^ k) q then k else (k - 1)%Z.

(** The exponent of the unit in the last place of a positive number. *)
Definition ulp_exponent (q : Q) : Z := Z.max (ilog2 q - 52) (-1074).

Definition round_positive (q : Q) : Q :=
  let u := 2 ^ ulp_exponent q in
  inject_Z (round_half_even (q / u)) * u.

(** The binary64 number nearest to [q]. *)
Definition round64 (q : Q) : Q :=
  Qred (if Qltb 0 q then round_positive q
        else if Qltb q 0 then - round_positive (- q)
        else 0).

(** [a + b], [a - b] and [a * b] on floats. *)
Definition fadd (a b : Q) : Q := round64 (a + b).
Definition fsub (a b : Q) : Q := round64 (a - b).
Definition fmul (a b : Q) : Q := round64 (a * b).

End Float64.

(** ** Time *)

Module Time.

Definition microseconds_per_day : Z := 86400000000.

(** [datetime.date()] as a day number. *)
Definition date_of (t : Z) : Z := t / microseconds_per_day.

(** [timedelta(days=d)]. *)
Definition timedelta_days (d : Z) : Z := d * microseconds_per_day.

End Time.

(** ** The relational store *)

Module Store.

(** A row of [listings] (schema of [seed_demo.ensure_tables]); the numeric
    columns are given after [pd.to_numeric(errors='coerce')]. *)
Record Listing := mkListing {
  listing_id : string;
  price : option Q;
  beds : option Q;
  baths : option Q;
  sq_ft : option Q;
  year_built : option Q;
  property_type : option string;
  zip_code : option string;
  dq_status : option string;
  scrape_timestamp : Z
}.

(** A row of [group_stats]. *)
Record GroupStat := mkGroupStat {
  gs_zip_code : string;
  gs_property_type : string;
  gs_stat_date : Z;
  gs_mean_ppsq : option Q;
  gs_std_ppsq : option Q;
  gs_count_listings : nat
}.

(** A row of [listing_analysis]. *)
Record Analysis := mkAnalysis {
  la_listing_id : string;
  la_price_per_sqft : option Q;
  la_is_anomaly : bool;
  la_anomaly_type : option string;
  la_mean_ppsq : option Q;
  la_std_ppsq : option Q;
  la_predicted_price : option Q;
  la_deviation_percentage : option Q;
  la_dq_status : option string;
  la_analyzed_at : Z
}.

(** A row of [listing_analysis] with its [analyzed_at] column blanked: what
    two rows share when they differ in the analysis timestamp only. *)
Definition unstamped (r : Analysis) : Analysis :=
  {| la_listing_id := la_listing_id r;
     la_price_per_sqft := la_price_per_sqft r;
     la_is_anomaly := la_is_anomaly r;
     la_anomaly_type := la_anomaly_type r;
     la_mean_ppsq := la_mean_ppsq r;
     la_std_ppsq := la_std_ppsq r;
     la_predicted_price := la_predicted_price r;
     la_deviation_percentage := la_deviation_percentage r;
     la_dq_status := la_dq_status r;
     la_analyzed_at := 0 |}.

(** The store: its three tables, and how it evaluates
    [scrape_timestamp >= :since] on a stored cell and the bound value:
    [timestamp_ge cell since].  On a TIMESTAMP column this is the order of
    the instants.  On the TEXT column of the SQLite schema
    ([seed_demo.ensure_tables], [test_e2e.setup_db]) it is the order of the
    texts, where the text of [:since] is the one the driver binds
    ('YYYY-MM-DD HH:MM:SS.ffffff') and the text of the cell the one its
    writer stored (with a 'T' from [isoformat] in [seed_demo] and in the
    spider); the two orders differ on the day of [:since]. *)
Record DB := mkDB {
  listings : list Listing;
  group_stats : list GroupStat;
  listing_analysis : list Analysis;
  timestamp_ge : Z -> Z -> bool
}.

(** [engine.dialect.name]. *)
Inductive Dialect := sqlite | postgresql.

(** A listing with another quality status, and a store whose listings are
    given the status [status l] each. *)
Definition with_dq_status (status : Listing -> option string) (l : Listing) : Listing :=
  mkListing (listing_id l) (price l) (beds l) (baths l) (sq_ft l) (year_built l)
            (property_type l) (zip_code l) (status l) (scrape_timestamp l).

(** The columns of a listing that the statistical engine reads, the others
    blanked. *)
Definition read_columns (l : Listing) : Listing :=
  mkListing (listing_id l) (price l) None None (sq_ft l) None
            (property_type l) (zip_code l) None 0.

Definition relabel (status : Listing -> option string) (db : DB) : DB :=
  {| listings := map (with_dq_status status) (listings db);
     group_stats := group_stats db;
     listing_analysis := listing_analysis db;
     timestamp_ge := timestamp_ge db |}.

Definition opt_string_eqb (c : option string) (s : string) : bool :=
  match c with
  | Some s' => String.eqb s' s
  | None => false
  end.

Section Upsert.
Variables (R K : Type) (key : R -> K) (K_eqb : K -> K -> bool).

(** SQLite's [INSERT OR REPLACE]: the rows that clash with the new row on
    a uniqueness constraint are deleted, then the new row is inserted.
    [constrained] tells whether the table carries the constraint on
    [key]; without it nothing clashes and the statement is an insert. *)
Definition insert_or_replace (constrained : bool) (new : R) (tbl : list R) : list R :=
  filter (fun old => negb (constrained && K_eqb (key new) (key old))) tbl ++ [new].

(** Modelled from the spec: the PostgreSQL schema ([sql/create_tables.sql])
    is not among the sources; by the spec's Result Upserter the conflict
    target of each statement is a key of its table ("insert if absent,
    otherwise overwrite").  So [INSERT ... ON CONFLICT (key) DO UPDATE
    SET ...] updates in place, by [set old new], the row holding the key,
    and inserts the new row when there is none. *)
Definition on_conflict_do_update (set : R -> R -> R) (new : R) (tbl : list R) : list R :=
  if existsb (fun old => K_eqb (key new) (key old)) tbl
  then map (fun old => if K_eqb (key new) (key old) then set old new else old) tbl
  else tbl ++ [new].
End Upsert.

(** The conflict target of [group_stats]. *)
Definition gs_key (g : GroupStat) : string * string * Z :=
  (gs_zip_code g, gs_property_type g, gs_stat_date g).

Definition gs_key_eqb (a b : string * string * Z) : bool :=
  let '(z1, t1, d1) := a in
  let '(z2, t2, d2) := b in
  String.eqb z1 z2 && String.eqb t1 t2 && Z.eqb d1 d2.

(** [CREATE TABLE group_stats] of [seed_demo.ensure_tables] and of
    [test_e2e.setup_db] (the database file the SQLite engine of [config]
    opens): the only key is the autoincrement [id]; no uniqueness
    constraint covers (zip_code, property_type, stat_date). *)
Definition sqlite_group_stats_unique : bool := false.

(** [listing_id TEXT PRIMARY KEY] in the same two schemas. *)
Definition sqlite_listing_analysis_unique : bool := true.

End Store.

(** ** [analysis/analyze.py]: the statistical engine *)

Module Analyze.
Import Pandas Float64 Time Store.

Definition THRESHOLD_MULTIPLIER : Q := 3 # 2.

(** The dictionaries of [gs_records] are rows of [group_stats]; a
    dictionary of [records] is a verdict, stamped when it is stored. *)
Record Verdict := mkVerdict {
  v_listing_id : string;
  v_price_per_sqft : option Q;
  v_is_anomaly : bool;
  v_anomaly_type : option string;
  v_mean_ppsq : option Q;
  v_std_ppsq : option Q
}.

(** A row of [stats] after [reset_index] and [rename]. *)
Record Stats := mkStats {
  st_key : string * string;
  mu : option Q;
  sigma : option Q;
  n : nat
}.

(** [SELECT * FROM listings WHERE zip_code = :zip]. *)
Definition select_zip (zip : string) (db : DB) : list Listing :=
  filter (fun l => opt_string_eqb (zip_code l) zip) (listings db).

(** [df['ppsq'] = df['price'] / df['sq_ft']]. *)
Definition ppsq (l : Listing) : option Q :=
  match price l, sq_ft l with
  | Some p, Some a => Some (p / a)
  | _, _ => None
  end.

(** The value of [group_cols] on a row; [groupby] drops the rows on which
    one of them is missing. *)
Definition group_key (l : Listing) : option (string * string) :=
  match zip_code l, property_type l with
  | Some z, Some t => Some (z, t)
  | _, _ => None
  end.

Definition key_eqb (a b : string * string) : bool :=
  String.eqb (fst a) (fst b) && String.eqb (snd a) (snd b).

Definition key_leb (a b : string * string) : bool :=
  if String.eqb (fst a) (fst b) then String.leb (snd a) (snd b)
  else String.leb (fst a) (fst b).

Definition in_group (k : string * string) (l : Listing) : bool :=
  match group_key l with
  | Some k' => key_eqb k k'
  | None => false
  end.

Definition add_key (k : string * string) (ks : list (string * string)) :=
  if existsb (key_eqb k) ks then ks else insert_sorted key_leb k ks.

(** The groups of [df.groupby(group_cols)]: the distinct keys, sorted. *)
Definition group_keys (df : list Listing) : list (string * string) :=
  fold_right
    (fun l ks => match group_key l with Some k => add_key k ks | None => ks end)
    [] df.

(** [flag_row], on the cells it reads.  The two bounds are floats:
    [r['mu'] + THRESHOLD_MULTIPLIER * r['sigma']] rounds the product, then
    the sum. *)
Definition flag_row (r_ppsq r_mu r_sigma : option Q) : bool * option string :=
  match r_ppsq, r_mu, r_sigma with
  | Some x, Some m, Some s =>
      let upper := fadd m (fmul THRESHOLD_MULTIPLIER s) in
      let lower := fsub m (fmul THRESHOLD_MULTIPLIER s) in
      if Qltb upper x then (true, Some "over-priced"%string)
      else if Qltb x lower then (true, Some "under-priced"%string)
      else (false, None)
  | _, _, _ => (false, None)
  end.

(** [INSERT INTO listing_analysis (listing_id, price_per_sqft, is_anomaly,
    anomaly_type, mean_ppsq, std_ppsq, analyzed_at)]: the columns the
    statement does not name take their default, NULL. *)
Definition new_row (v : Verdict) (at_ : Z) : Analysis :=
  {| la_listing_id := v_listing_id v;
     la_price_per_sqft := v_price_per_sqft v;
     la_is_anomaly := v_is_anomaly v;
     la_anomaly_type := v_anomaly_type v;
     la_mean_ppsq := v_mean_ppsq v;
     la_std_ppsq := v_std_ppsq v;
     la_predicted_price := None;
     la_deviation_percentage := None;
     la_dq_status := None;
     la_analyzed_at := at_ |}.

(** [DO UPDATE SET price_per_sqft = EXCLUDED.price_per_sqft, ...,
    analyzed_at = :analyzed_at]: the other columns keep their value. *)
Definition set_row (old new : Analysis) : Analysis :=
  {| la_listing_id := la_listing_id old;
     la_price_per_sqft := la_price_per_sqft new;
     la_is_anomaly := la_is_anomaly new;
     la_anomaly_type := la_anomaly_type new;
     la_mean_ppsq := la_mean_ppsq new;
     la_std_ppsq := la_std_ppsq new;
     la_predicted_price := la_predicted_price old;
     la_deviation_percentage := la_deviation_percentage old;
     la_dq_status := la_dq_status old;
     la_analyzed_at := la_analyzed_at new |}.

(** [DO UPDATE SET mean_ppsq = EXCLUDED.mean_ppsq, std_ppsq = ...,
    count_listings = ...] on a row with the key of the new one. *)
Definition set_group_stat (old new : GroupStat) : GroupStat :=
  {| gs_zip_code := gs_zip_code old;
     gs_property_type := gs_property_type old;
     gs_stat_date := gs_stat_date old;
     gs_mean_ppsq := gs_mean_ppsq new;
     gs_std_ppsq := gs_std_ppsq new;
     gs_count_listings := gs_count_listings new |}.

(** One execution of the [group_stats] statement of the dialect. *)
Definition upsert_group_stat (d : Dialect) (rec : GroupStat) (tbl : list GroupStat) :=
  match d with
  | sqlite => insert_or_replace gs_key gs_key_eqb sqlite_group_stats_unique rec tbl
  | postgresql => on_conflict_do_update gs_key gs_key_eqb set_group_stat rec tbl
  end.

(** One execution of the [listing_analysis] statement of the dialect. *)
Definition upsert_analysis (d : Dialect) (row : Analysis) (tbl : list Analysis) :=
  match d with
  | sqlite =>
      insert_or_replace la_listing_id String.eqb sqlite_listing_analysis_unique row tbl
  | postgresql => on_conflict_do_update la_listing_id String.eqb set_row row tbl
  end.

(** [rec['analyzed_at'] = datetime.utcnow().isoformat()], record after
    record: the [i]-th record is stamped with the clock's reading [first + i]. *)
Fixpoint stamp (now : nat -> Z) (first : nat) (records : list Verdict) : list Analysis :=
  match records with
  | [] => []
  | v :: rest => new_row v (now first) :: stamp now (S first) rest
  end.

Section Engine.
Variable sqrtQ : Q -> Q.

(** [df.groupby(group_cols)['ppsq'].agg(['mean', 'std', 'count'])]. *)
Definition groupby_agg (df : list Listing) : list Stats :=
  map (fun k =>
         let xs := map ppsq (filter (in_group k) df) in
         {| st_key := k;
            mu := agg_mean xs;
            sigma := agg_std sqrtQ xs;
            n := agg_count xs |})
      (group_keys df).

Definition gs_record (stat_date : Z) (row : Stats) : GroupStat :=
  {| gs_zip_code := fst (st_key row);
     gs_property_type := snd (st_key row);
     gs_stat_date := stat_date;
     gs_mean_ppsq := mu row;
     gs_std_ppsq := sigma row;
     gs_count_listings := n row |}.

(** [df.merge(stats, on=group_cols, how='left')]: the statistics of the
    row's group, missing when the row has no group. *)
Definition merged (stats : list Stats) (l : Listing) : option Stats :=
  match group_key l with
  | Some k => find (fun s => key_eqb (st_key s) k) stats
  | None => None
  end.

Definition merged_mu (stats : list Stats) (l : Listing) : option Q :=
  match merged stats l with Some s => mu s | None => None end.

Definition merged_sigma (stats : list Stats) (l : Listing) : option Q :=
  match merged stats l with Some s => sigma s | None => None end.

(** The dictionary appended to [records] for a row of the merged frame. *)
Definition verdict (stats : list Stats) (l : Listing) : Verdict :=
  let flags := flag_row (ppsq l) (merged_mu stats l) (merged_sigma stats l) in
  {| v_listing_id := listing_id l;
     v_price_per_sqft := ppsq l;
     v_is_anomaly := fst flags;
     v_anomaly_type := snd flags;
     v_mean_ppsq := merged_mu stats l;
     v_std_ppsq := merged_sigma stats l |}.

(** The frame the statistics are computed on: the listings of the zip
    code with a positive area. *)
Definition frame (zip : string) (db : DB) : list Listing :=
  filter (fun l => cell_gt (sq_ft l) 0) (select_zip zip db).

Definition gs_records (now : nat -> Z) (zip : string) (db : DB) : list GroupStat :=
  map (gs_record (date_of (now 0%nat))) (groupby_agg (frame zip db)).

Definition records (zip : string) (db : DB) : list Verdict :=
  map (verdict (groupby_agg (frame zip db))) (frame zip db).

(** [analyze_and_store]: the store after the run.  [now 0] is the reading
    that gives [stat_date], [now (1 + i)] the one that stamps record [i].
    When no listing of the zip code has a positive area pandas raises at
    [flags[0]]; no group and no record exists then, so the store is left
    as it was in that case too. *)
Definition analyze_and_store (d : Dialect) (now : nat -> Z) (zip : string) (db : DB) : DB :=
  match select_zip zip db with
  | [] => db
  | _ =>
      {| listings := listings db;
         group_stats :=
           fold_left (fun tbl rec => upsert_group_stat d rec tbl)
                     (gs_records now zip db) (group_stats db);
         listing_analysis :=
           fold_left (fun tbl row => upsert_analysis d row tbl)
                     (stamp now 1 (records zip db)) (listing_analysis db);
         timestamp_ge := timestamp_ge db |}
  end.
End Engine.

End Analyze.

(** ** [analysis/analyze_ml.py]: the model-residual engine *)

Module AnalyzeML.
Import Pandas Time Store.

Definition DEVIATION_THRESHOLD : Q := 15.
Definition MIN_TRAIN_SIZE : nat := 500.

(** A Python exception, by the name of its class. *)
Definition exn := string.

(** The outcome of a call that may raise. *)
Inductive result (A : Type) :=
| Ok (a : A)
| Raise (e : exn).
Arguments Ok {A} a.
Arguments Raise {A} e.

(** The summary dictionary [report]. *)
Record Report := mkReport {
  timestamp : Z;
  report_zip_code : string;
  total_new_listings : nat;
  dq_failures : nat;
  model_trained : bool;
  ml_anomalies : nat;
  ml_opportunities : nat;
  ml_risks : nat
}.

(** A dictionary of [records], before it is stamped. *)
Record Scored := mkScored {
  sc_listing_id : string;
  sc_price_per_sqft : option Q;
  sc_is_anomaly : bool;
  sc_anomaly_type : option string;
  sc_mean_ppsq : option Q;
  sc_std_ppsq : option Q;
  sc_predicted_price : option Q;
  sc_deviation_percentage : option Q;
  sc_dq_status : option string
}.

(** [load_recent_listings]: [now_] is the reading of the clock in the
    call; the three conditions of the [WHERE] clause are evaluated by the
    store. *)
Definition load_recent_listings (now_ : Z) (zip : string) (days : Z) (db : DB)
  : list Listing :=
  let since := (now_ - timedelta_days days)%Z in
  filter (fun l => opt_string_eqb (zip_code l) zip
                   && timestamp_ge db (scrape_timestamp l) since
                   && opt_string_eqb (dq_status l) "PASS")
         (listings db).

Definition default_days : Z := 90.

Definition with_beds (l : Listing) (c : option Q) : Listing :=
  mkListing (listing_id l) (price l) c (baths l) (sq_ft l) (year_built l)
            (property_type l) (zip_code l) (dq_status l) (scrape_timestamp l).

Definition with_baths (l : Listing) (c : option Q) : Listing :=
  mkListing (listing_id l) (price l) (beds l) c (sq_ft l) (year_built l)
            (property_type l) (zip_code l) (dq_status l) (scrape_timestamp l).

Definition with_year_built (l : Listing) (c : option Q) : Listing :=
  mkListing (listing_id l) (price l) (beds l) (baths l) (sq_ft l) c
            (property_type l) (zip_code l) (dq_status l) (scrape_timestamp l).

(** [prepare_features]. *)
Definition prepare_features (df : list Listing) : list Listing :=
  let df := filter (fun l => cell_gt (sq_ft l) 0 && cell_gt (price l) 0
                             && cell_gt (beds l) 0) df in
  let df := map (fun l => with_beds l (fillna (beds l) (median (map beds df)))) df in
  let df := map (fun l => with_baths l (fillna (baths l) (median (map baths df)))) df in
  let df := map (fun l => with_year_built l
                            (fillna (year_built l) (median (map year_built df)))) df in
  df.

(** [calculate_deviation]. *)
Definition calculate_deviation (actual_price predicted_price : Q) : Q :=
  if Qeq_bool predicted_price 0 then 0
  else ((actual_price - predicted_price) / predicted_price) * 100.

(** The two columns derived from [deviation_percentage] when a model is
    present: [abs() > DEVIATION_THRESHOLD] and the category. *)
Definition classify_deviation (deviation : Q) : bool * option string :=
  (Qltb DEVIATION_THRESHOLD (Qabs deviation),
   if Qltb DEVIATION_THRESHOLD deviation then Some "over-priced"%string
   else if Qltb deviation (- DEVIATION_THRESHOLD) then Some "under-priced"%string
   else None).

Definition scored_row (s : Scored) (at_ : Z) : Analysis :=
  {| la_listing_id := sc_listing_id s;
     la_price_per_sqft := sc_price_per_sqft s;
     la_is_anomaly := sc_is_anomaly s;
     la_anomaly_type := sc_anomaly_type s;
     la_mean_ppsq := sc_mean_ppsq s;
     la_std_ppsq := sc_std_ppsq s;
     la_predicted_price := sc_predicted_price s;
     la_deviation_percentage := sc_deviation_percentage s;
     la_dq_status := sc_dq_status s;
     la_analyzed_at := at_ |}.

(** [DO UPDATE SET] of this engine names every column but the key. *)
Definition set_row (old new : Analysis) : Analysis :=
  {| la_listing_id := la_listing_id old;
     la_price_per_sqft := la_price_per_sqft new;
     la_is_anomaly := la_is_anomaly new;
     la_anomaly_type := la_anomaly_type new;
     la_mean_ppsq := la_mean_ppsq new;
     la_std_ppsq := la_std_ppsq new;
     la_predicted_price := la_predicted_price new;
     la_deviation_percentage := la_deviation_percentage new;
     la_dq_status := la_dq_status new;
     la_analyzed_at := la_analyzed_at new |}.

Definition upsert_analysis (d : Dialect) (row : Analysis) (tbl : list Analysis) :=
  match d with
  | sqlite =>
      insert_or_replace la_listing_id String.eqb sqlite_listing_analysis_unique row tbl
  | postgresql => on_conflict_do_update la_listing_id String.eqb set_row row tbl
  end.

Fixpoint stamp (now : nat -> Z) (first : nat) (records : list Scored) : list Analysis :=
  match records with
  | [] => []
  | s :: rest => scored_row s (now first) :: stamp now (S first) rest
  end.

(** [SELECT COUNT( * ) FROM listings WHERE zip_code = :zip AND dq_status != 'PASS']:
    a NULL status satisfies neither [=] nor [!=]. *)
Definition count_dq_failures (zip : string) (db : DB) : nat :=
  length (filter (fun l => opt_string_eqb (zip_code l) zip
                           && match dq_status l with
                              | Some s => negb (String.eqb s "PASS")
                              | None => false
                              end)
                 (listings db)).

Section Engine.
Variable sqrtQ : Q -> Q.

(** The estimator of scikit-learn, outside the repository: [Model] is the
    fitted pair (model, scaler); [fit] is lines 83-105 of [train_model]
    (scaling, fitting, scoring and saving), which may raise; [predict] is
    [model.predict(scaler.transform(features))[0]]. *)
Variable Model : Type.
Variable fit : list Listing -> result Model.
Variable predict : Model -> option Q * option Q * option Q * option Q -> Q.

(** [train_model]; [Ok None] is the pair [(None, None)]. *)
Definition train_model (now_ : Z) (zip : string) (db : DB) : result (option Model) :=
  let df := load_recent_listings now_ zip default_days db in
  match df with
  | [] => Ok None
  | _ =>
      let df := prepare_features df in
      match df with
      | [] => Ok None
      | _ =>
          if (length df <? MIN_TRAIN_SIZE)%nat then Ok None
          else
            match fit df with
            | Ok m => Ok (Some m)
            | Raise e => Raise e
            end
      end
  end.

(** [predict_price] on a fitted model. *)
Definition predict_price (m : Model) (l : Listing) : Q :=
  Qmax (predict m (sq_ft l, beds l, baths l, year_built l)) 0.

(** [df['price_per_sqft'] = df['price'] / df['sq_ft']]. *)
Definition price_per_sqft (l : Listing) : option Q :=
  match price l, sq_ft l with
  | Some p, Some a => Some (p / a)
  | _, _ => None
  end.

(** The columns of [df.groupby('property_type')['price_per_sqft']
    .agg(['mean', 'std'])] merged back onto a row. *)
Definition same_type (l l' : Listing) : bool :=
  match property_type l, property_type l' with
  | Some t, Some t' => String.eqb t t'
  | _, _ => false
  end.

Definition group_mean (df : list Listing) (l : Listing) : option Q :=
  agg_mean (map price_per_sqft (filter (same_type l) df)).

Definition group_std (df : list Listing) (l : Listing) : option Q :=
  agg_std sqrtQ (map price_per_sqft (filter (same_type l) df)).

(** The dictionary appended to [records] for a row of the frame. *)
Definition scored (model : option Model) (df : list Listing) (l : Listing) : Scored :=
  match model with
  | Some m =>
      let predicted_price := predict_price m l in
      let deviation :=
        calculate_deviation (match price l with Some p => p | None => 0 end)
                            predicted_price in
      {| sc_listing_id := listing_id l;
         sc_price_per_sqft := price_per_sqft l;
         sc_is_anomaly := fst (classify_deviation deviation);
         sc_anomaly_type := snd (classify_deviation deviation);
         sc_mean_ppsq := group_mean df l;
         sc_std_ppsq := group_std df l;
         sc_predicted_price := Some predicted_price;
         sc_deviation_percentage := Some deviation;
         sc_dq_status := Some "PASS"%string |}
  | None =>
      {| sc_listing_id := listing_id l;
         sc_price_per_sqft := price_per_sqft l;
         sc_is_anomaly := false;
         sc_anomaly_type := None;
         sc_mean_ppsq := group_mean df l;
         sc_std_ppsq := group_std df l;
         sc_predicted_price := None;
         sc_deviation_percentage := None;
         sc_dq_status := Some "STAT_ONLY"%string |}
  end.

Definition records (model : option Model) (df : list Listing) : list Scored :=
  map (scored model df) df.

Definition count_if (p : Scored -> bool) (l : list Scored) : nat :=
  length (filter p l).

(** [analyze_and_store]: the summary and the store after the run, or the
    exception that ends it.  [now 0] stamps the report, [now 1] and
    [now 2] are read by the two calls of [load_recent_listings], and
    [now (3 + i)] stamps record [i]. *)
Definition analyze_and_store (d : Dialect) (now : nat -> Z) (zip : string) (db : DB)
  : result (Report * DB) :=
  let dq_count := count_dq_failures zip db in
  match train_model (now 1%nat) zip db with
  | Raise e => Raise e
  | Ok model =>
      let trained := negb (isna model) in
      let df := load_recent_listings (now 2%nat) zip default_days db in
      match df with
      | [] =>
          Ok ({| timestamp := now 0%nat; report_zip_code := zip;
                 total_new_listings := 0; dq_failures := dq_count;
                 model_trained := trained; ml_anomalies := 0;
                 ml_opportunities := 0; ml_risks := 0 |}, db)
      | _ =>
          let df := prepare_features df in
          let recs := records model df in
          Ok ({| timestamp := now 0%nat; report_zip_code := zip;
                 total_new_listings := length df; dq_failures := dq_count;
                 model_trained := trained;
                 ml_anomalies := count_if sc_is_anomaly recs;
                 ml_opportunities :=
                   count_if (fun s => sc_is_anomaly s
                                      && opt_string_eqb (sc_anomaly_type s) "under-priced")
                            recs;
                 ml_risks :=
                   count_if (fun s => sc_is_anomaly s
                                      && opt_string_eqb (sc_anomaly_type s) "over-priced")
                            recs |},
              {| listings := listings db;
                 group_stats := group_stats db;
                 listing_analysis :=
                   fold_left (fun tbl row => upsert_analysis d row tbl)
                             (stamp now 3 recs) (listing_analysis db);
                 timestamp_ge := timestamp_ge db |})
      end
  end.
(** The summary [analyze_and_store] returns, for the model and the
    prepared frame of the run. *)
Definition summary (now : nat -> Z) (zip : string) (db : DB)
           (model : option Model) (df : list Listing) : Report :=
  let recs := records model df in
  {| timestamp := now 0%nat; report_zip_code := zip;
     total_new_listings := length df; dq_failures := count_dq_failures zip db;
     model_trained := negb (isna model);
     ml_anomalies := count_if sc_is_anomaly recs;
     ml_opportunities :=
       count_if (fun s => sc_is_anomaly s
                          && opt_string_eqb (sc_anomaly_type s) "under-priced") recs;
     ml_risks :=
       count_if (fun s => sc_is_anomaly s
                          && opt_string_eqb (sc_anomaly_type s) "over-priced") recs |}.

End Engine.

End AnalyzeML.

(** ** [scheduler/run_daily_ml.py]: the step that calls the engine *)

Module Scheduler.
Import Store AnalyzeML.

(** What step 2 of [run_pipeline] logs. *)
Inductive StepLog :=
| AnalysisCompleted (report_data : Report)
| AnalysisFailed (e : exn).

(** Step 2 of [run_pipeline]: [try: report_data = analyze_and_store(...)
    except Exception as e: logger.error(...); return]. *)
Definition run_analysis_step (sqrtQ : Q -> Q) (Model : Type)
           (fit : list Listing -> result Model)
           (predict : Model -> option Q * option Q * option Q * option Q -> Q)
           (d : Dialect) (now : nat -> Z) (zip : string) (db : DB) : StepLog * DB :=
  match analyze_and_store sqrtQ fit predict d now zip db with
  | Ok (report_data, db') => (AnalysisCompleted report_data, db')
  | Raise e => (AnalysisFailed e, db)
  end.

End Scheduler.

(** ** [analysis/report.py]: a figure of the text report *)

Module ReportText.
Import AnalyzeML.

(** The number printed after "Listings Analyzed by ML:" by
    [generate_report], on a summary that has all its keys:
    [get('ml_anomalies', 0) + get('ml_opportunities', 0) + get('ml_risks', 0)]. *)
Definition listings_analyzed_by_ml (report_data : Report) : nat :=
  ml_anomalies report_data + ml_opportunities report_data + ml_risks report_data.

End ReportText.

(** ** Stores, clocks and estimators for the worked examples *)

Module Examples.
Import Pandas Time Store AnalyzeML.

Definition zip : string := "12345"%string.

(** A listing of zip code 12345 with three bedrooms and two bathrooms,
    scraped on 2025-10-20. *)
Definition listing (id : string) (price_ area : Q) (year : option Q)
           (type_ status : string) : Listing :=
  {| listing_id := id; price := Some price_; beds := Some 3; baths := Some 2;
     sq_ft := Some area; year_built := year; property_type := Some type_;
     zip_code := Some zip; dq_status := Some status;
     scrape_timestamp := 1761000000000000 |}.

(** A store without baselines and verdicts, whose [scrape_timestamp]
    column orders the instants. *)
Definition store (rows : list Listing) : DB :=
  {| listings := rows; group_stats := []; listing_analysis := [];
     timestamp_ge := fun cell since => (since <=? cell)%Z |}.

(** Two clocks of 2025-11-01: one run shortly after noon, one six hours
    later.  Successive readings are a microsecond apart. *)
Definition noon (i : nat) : Z := (1762000000000000 + Z.of_nat i)%Z.
Definition evening (i : nat) : Z := (1762021600000000 + Z.of_nat i)%Z.

(** Five houses at 105, 97, 99, 99 and 100 per square foot (mean 100,
    sample standard deviation 3) and one condominium. *)
Definition five_houses : DB :=
  store [listing "h1" 105000 1000 (Some 2000) "House" "PASS";
         listing "h2" 97000 1000 (Some 2001) "House" "PASS";
         listing "h3" 99000 1000 (Some 2002) "House" "PASS";
         listing "h4" 99000 1000 (Some 2003) "House" "PASS";
         listing "h5" 100000 1000 (Some 2004) "House" "PASS";
         listing "c1" 300000 1000 (Some 2010) "Condo" "PASS"]%string.

(** Two listings that passed the quality gate of the pipeline and one that
    failed it on its area (400 square feet, below [MIN_SQ_FT]); the pipeline
    stores the failed one too, with the reason as its status. *)
Definition passed_only : DB :=
  store [listing "p1" 100000 1000 (Some 2000) "House" "PASS";
         listing "p2" 110000 1000 (Some 2001) "House" "PASS"]%string.

Definition with_failed : DB :=
  store [listing "p1" 100000 1000 (Some 2000) "House" "PASS";
         listing "p2" 110000 1000 (Some 2001) "House" "PASS";
         listing "f1" 200000 400 (Some 2002) "House"
                 "sq_ft (400) below minimum (500)"]%string.

(** [count] quality-passing houses with distinct two-letter identifiers
    (for [count] up to 676), all with construction year [year]. *)
Definition identifier (i : nat) : string :=
  String (Ascii.ascii_of_nat (65 + i / 26))
         (String (Ascii.ascii_of_nat (97 + i mod 26)) EmptyString).

Definition population (count : nat) (year : option Q) : DB :=
  store (map (fun i => listing (identifier i) (100000 + inject_Z (Z.of_nat i)) 1000
                               year "House" "PASS")
             (seq 0 count)).

(** An estimator that always fits, and one that, as scikit-learn's input
    validation does, raises ValueError on a matrix with a missing entry. *)
Definition fit_always (X : list Listing) : result unit := Ok tt.

Definition fit_validating (X : list Listing) : result unit :=
  if forallb (fun l => negb (isna (sq_ft l) || isna (beds l)
                             || isna (baths l) || isna (year_built l))) X
  then Ok tt
  else Raise "ValueError"%string.

Definition predict_mean (m : unit) (x : option Q * option Q * option Q * option Q) : Q :=
  100000.

(** A regressor whose raw prediction is negative. *)
Definition predict_below_zero (m : unit) (x : option Q * option Q * option Q * option Q)
  : Q := - 5000.

End Examples.

(** * Properties of the engine *)

(** ** Comparisons on exact numbers *)

Section Comparisons.
Import Pandas.

Lemma Qltb_lt (x y : Q) : Qltb x y = true <-> x < y.
Proof.
  unfold Qltb. rewrite negb_true_iff, <- not_true_iff_false, Qle_bool_iff.
  split; intro H; [apply Qnot_le_lt | apply Qlt_not_le]; exact H.
Qed.

Lemma Qltb_ge (x y : Q) : Qltb x y = false <-> y <= x.
Proof.
  unfold Qltb. rewrite negb_false_iff. apply Qle_bool_iff.
Qed.

Lemma Qltb_abs (t d : Q) :
  Qltb t (Qabs d) = Qltb t d || Qltb d (- t).
Proof.
  apply eq_true_iff_eq.
  rewrite orb_true_iff, !Qltb_lt.
  apply Qabs_case; intros Hd; split; intro H; try lra.
Qed.
End Comparisons.

(** ** Rounding to binary64 *)

Section Rounding.
Import Pandas Float64.

Lemma round_half_even_floor (q : Q) :
  (Qfloor q <= round_half_even q <= Qfloor q + 1)%Z.
Proof.
  unfold round_half_even.
  destruct (Qltb _ _); [lia|]. destruct (Qltb _ _); [lia|].
  destruct (Z.even _); lia.
Qed.

Lemma round_half_even_Z (n : Z) : round_half_even (inject_Z n) = n.
Proof.
  unfold round_half_even. rewrite Qfloor_Z.
  replace (Qltb (inject_Z n - inject_Z n) (1 # 2)) with true; [reflexivity|].
  symmetry. apply Qltb_lt. lra.
Qed.

Lemma round_half_even_le (a b : Q) :
  a <= b -> (round_half_even a <= round_half_even b)%Z.
Proof.
  intro Hab. pose proof (Qfloor_resp_le _ _ Hab) as Hf.
  destruct (Z.eq_dec (Qfloor a) (Qfloor b)) as [E | E].
  - unfold round_half_even. rewrite E.
    destruct (Qltb (a - _) _) eqn:A1; [destruct (Qltb (b - _) _);
      [lia | destruct (Qltb _ (b - _)); [lia | destruct (Z.even _); lia]] |].
    destruct (Qltb (b - _) _) eqn:B1.
    { apply Qltb_ge in A1. apply Qltb_lt in B1. lra. }
    destruct (Qltb _ (a - _)) eqn:A2.
    { destruct (Qltb _ (b - _)) eqn:B2; [lia|].
      apply Qltb_lt in A2. apply Qltb_ge in B2. lra. }
    destruct (Qltb _ (b - _)); destruct (Z.even _); lia.
  - pose proof (round_half_even_floor a). pose proof (round_half_even_floor b). lia.
Qed.

Lemma two_power_pos (z : Z) : 0 < 2 ^ z.
Proof. apply Qpower_0_lt. reflexivity. Qed.

Lemma ilog2_spec (q : Q) :
  0 < q -> 2 ^ ilog2 q <= q /\ q < 2 ^ (ilog2 q + 1).
Proof.
  intro Hq. destruct q as [n d]. unfold ilog2. cbn [Qnum Qden].
  assert (0 < n)%Z as Hn by (unfold Qlt in Hq; simpl in Hq; lia).
  set (a := Z.log2 n). set (b := Z.log2 (Z.pos d)).
  assert (0 <= a)%Z as Ha by apply Z.log2_nonneg.
  assert (0 <= b)%Z as Hb by apply Z.log2_nonneg.
  destruct (Z.log2_spec n Hn) as [Hn1 Hn2].
  destruct (Z.log2_spec (Z.pos d) eq_refl) as [Hd1 Hd2].
  fold a in Hn1, Hn2. fold b in Hd1, Hd2.
  assert (inject_Z (2 ^ a) == 2 ^ a) as Pa by (now apply Zpower_Qpower).
  assert (inject_Z (2 ^ b) == 2 ^ b) as Pb by (now apply Zpower_Qpower).
  assert (2 ^ a <= inject_Z n) as N1 by (rewrite <- Pa; now rewrite <- Zle_Qle).
  assert (inject_Z n < 2 * 2 ^ a) as N2.
  { rewrite <- Pa. change 2 with (inject_Z 2) at 1. rewrite <- inject_Z_mult, <- Zlt_Qlt.
    rewrite Z.pow_succ_r in Hn2; lia. }
  assert (2 ^ b <= inject_Z (Z.pos d)) as D1 by (rewrite <- Pb; now rewrite <- Zle_Qle).
  assert (inject_Z (Z.pos d) < 2 * 2 ^ b) as D2.
  { rewrite <- Pb. change 2 with (inject_Z 2) at 1. rewrite <- inject_Z_mult, <- Zlt_Qlt.
    rewrite Z.pow_succ_r in Hd2; lia. }
  pose proof (two_power_pos a) as Pa0. pose proof (two_power_pos b) as Pb0.
  assert (n # d == inject_Z n / inject_Z (Z.pos d)) as Eq by apply Qmake_Qdiv.
  assert (forall k : Z, 2 ^ (k + 1) == 2 * 2 ^ k) as Hsucc.
  { intro k. rewrite Qpower_plus by discriminate. rewrite Qpower_1_r. ring. }
  assert (2 ^ (a - b) == 2 ^ a / 2 ^ b) as Hk by (apply Qpower_minus; discriminate).
  assert (0 < inject_Z (Z.pos d)) as D0 by lra.
  destruct (Qle_bool _ _) eqn:E.
  - apply Qle_bool_iff in E. split; [exact E|].
    rewrite Hsucc, Hk, Eq.
    apply Qlt_shift_div_r; [exact D0|].
    setoid_replace (2 * (2 ^ a / 2 ^ b) * inject_Z (Z.pos d))
      with ((2 * 2 ^ a) * (inject_Z (Z.pos d) / 2 ^ b)) by (field; lra).
    assert (1 <= inject_Z (Z.pos d) / 2 ^ b) by (apply Qle_shift_div_l; lra).
    revert N2 H Pa0. generalize (inject_Z (Z.pos d) / 2 ^ b) (2 ^ a) (inject_Z n).
    clear. intros t P N N2 H Pa0.
    apply Qlt_le_trans with (2 * P * 1); [lra|].
    apply (proj2 (Qmult_le_l 1 t (2 * P) ltac:(lra))). exact H.
  - assert (~ 2 ^ (a - b) <= n # d) as E'
        by (intro H; apply Qle_bool_iff in H; congruence).
    apply Qnot_le_lt in E'.
    replace (a - b - 1 + 1)%Z with (a - b)%Z by lia. split; [| exact E'].
    assert (2 ^ (a - b - 1) == 2 ^ a / (2 * 2 ^ b)) as H2.
    { rewrite (Qpower_minus 2 (a - b) 1) by discriminate.
      rewrite Hk, Qpower_1_r. field. lra. }
    rewrite H2, Eq. apply Qle_shift_div_l; [exact D0|].
    setoid_replace (2 ^ a / (2 * 2 ^ b) * inject_Z (Z.pos d))
      with (2 ^ a * (inject_Z (Z.pos d) / (2 * 2 ^ b))) by (field; lra).
    assert (inject_Z (Z.pos d) / (2 * 2 ^ b) <= 1) by (apply Qle_shift_div_r; lra).
    revert N1 H Pa0. generalize (inject_Z (Z.pos d) / (2 * 2 ^ b)) (2 ^ a) (inject_Z n).
    clear. intros t P N N1 H Pa0.
    apply Qle_trans with (P * 1); [| lra].
    apply (proj2 (Qmult_le_l t 1 P Pa0)). exact H.
Qed.

Lemma ilog2_le (a b : Q) : 0 < a -> a <= b -> (ilog2 a <= ilog2 b)%Z.
Proof.
  intros Ha Hab.
  destruct (ilog2_spec Ha) as [A1 _].
  destruct (@ilog2_spec b) as [_ B2]; [lra|].
  assert (2 ^ ilog2 a < 2 ^ (ilog2 b + 1)) as H by lra.
  apply Qpower_lt_compat_l_inv in H; [lia | reflexivity].
Qed.

Lemma scale_le (m n : Z) (u : Q) :
  0 < u -> (m <= n)%Z -> inject_Z m * u <= inject_Z n * u.
Proof.
  intros Hu H. apply Qmult_le_compat_r; [now rewrite <- Zle_Qle | lra].
Qed.

Lemma round_positive_nonneg (q : Q) : 0 < q -> 0 <= round_positive q.
Proof.
  intro Hq. unfold round_positive.
  pose proof (two_power_pos (ulp_exponent q)) as Hu.
  assert (0 <= q / 2 ^ ulp_exponent q) as H by (apply Qle_shift_div_l; lra).
  apply round_half_even_le in H. change 0 with (inject_Z 0) in H.
  rewrite round_half_even_Z in H.
  apply (scale_le Hu) in H. change (inject_Z 0) with 0 in H.
  now rewrite Qmult_0_l in H.
Qed.

Lemma round_positive_le (a b : Q) :
  0 < a -> a <= b -> round_positive a <= round_positive b.
Proof.
  intros Ha Hab. assert (0 < b) as Hb by lra.
  pose proof (ilog2_le Ha Hab) as He.
  destruct (ilog2_spec Ha) as [_ A2]. destruct (ilog2_spec Hb) as [B1 _].
  unfold round_positive.
  pose proof (two_power_pos (ulp_exponent a)) as Ua.
  pose proof (two_power_pos (ulp_exponent b)) as Ub.
  destruct (Z.eq_dec (ulp_exponent a) (ulp_exponent b)) as [E | E].
  - rewrite E in *.
    assert (a / 2 ^ ulp_exponent b <= b / 2 ^ ulp_exponent b) as H.
    { apply Qle_shift_div_l; [lra|].
      setoid_replace (a / 2 ^ ulp_exponent b * 2 ^ ulp_exponent b) with a by (field; lra).
      exact Hab. }
    apply round_half_even_le in H. now apply scale_le.
  - set (Ea := ulp_exponent a) in *. set (Eb := ulp_exponent b) in *.
    assert (Ea < Eb /\ Eb = ilog2 b - 52 /\ ilog2 a + 1 <= Ea + 53)%Z as [Hlt [HEb HEa]]
        by (unfold Ea, Eb, ulp_exponent in *; lia).
    assert (forall E : Z, 2 ^ (E + 53) == inject_Z (2 ^ 53) * 2 ^ E) as P53.
    { intro E0. rewrite Qpower_plus by discriminate. rewrite (Zpower_Qpower 2 53) by lia.
      ring. }
    assert (forall E : Z, 2 ^ (E + 52) == inject_Z (2 ^ 52) * 2 ^ E) as P52.
    { intro E0. rewrite Qpower_plus by discriminate. rewrite (Zpower_Qpower 2 52) by lia.
      ring. }
    assert (inject_Z (round_half_even (a / 2 ^ Ea)) * 2 ^ Ea <= 2 ^ (Ea + 53)) as Hup.
    { assert (a <= 2 ^ (Ea + 53)) as H1.
      { apply Qle_trans with (2 ^ (ilog2 a + 1)); [lra|].
        apply Qpower_le_compat_l; [exact HEa | discriminate]. }
      assert (a / 2 ^ Ea <= inject_Z (2 ^ 53)) as H2.
      { apply Qle_shift_div_r; [exact Ua|]. now rewrite <- P53. }
      apply round_half_even_le in H2. rewrite round_half_even_Z in H2.
      rewrite P53. now apply scale_le. }
    assert (2 ^ (Eb + 52) <= inject_Z (round_half_even (b / 2 ^ Eb)) * 2 ^ Eb) as Hlo.
    { assert (2 ^ (Eb + 52) <= b) as H1.
      { replace (Eb + 52)%Z with (ilog2 b) by lia. exact B1. }
      assert (inject_Z (2 ^ 52) <= b / 2 ^ Eb) as H2.
      { apply Qle_shift_div_l; [exact Ub|]. now rewrite <- P52. }
      apply round_half_even_le in H2. rewrite round_half_even_Z in H2.
      rewrite P52. now apply scale_le. }
    assert (2 ^ (Ea + 53) <= 2 ^ (Eb + 52)) as Hmid
        by (apply Qpower_le_compat_l; [lia | discriminate]).
    lra.
Qed.

Lemma round64_zero (q : Q) : q == 0 -> round64 q == 0.
Proof.
  intro H. unfold round64. rewrite Qred_correct.
  replace (Qltb 0 q) with false by (symmetry; apply Qltb_ge; lra).
  replace (Qltb q 0) with false by (symmetry; apply Qltb_ge; lra).
  reflexivity.
Qed.

(** Rounding keeps the order. *)
Lemma round64_le (a b : Q) : a <= b -> round64 a <= round64 b.
Proof.
  intro Hab. unfold round64. rewrite !Qred_correct.
  destruct (Qltb 0 a) eqn:A0.
  - apply Qltb_lt in A0.
    replace (Qltb 0 b) with true by (symmetry; apply Qltb_lt; lra).
    now apply round_positive_le.
  - apply Qltb_ge in A0. destruct (Qltb a 0) eqn:A1.
    + apply Qltb_lt in A1.
      assert (0 <= round_positive (- a)) by (apply round_positive_nonneg; lra).
      destruct (Qltb 0 b) eqn:B0.
      * apply Qltb_lt in B0. pose proof (round_positive_nonneg B0). lra.
      * apply Qltb_ge in B0. destruct (Qltb b 0) eqn:B1; [| lra].
        apply Qltb_lt in B1.
        assert (round_positive (- b) <= round_positive (- a))
          by (apply round_positive_le; lra).
        lra.
    + apply Qltb_ge in A1.
      destruct (Qltb 0 b) eqn:B0.
      * apply Qltb_lt in B0. now apply round_positive_nonneg.
      * apply Qltb_ge in B0.
        replace (Qltb b 0) with false by (symmetry; apply Qltb_ge; lra). lra.
Qed.

Lemma round64_nonneg (q : Q) : 0 <= q -> 0 <= round64 q.
Proof.
  intro H. apply Qle_trans with (round64 0); [| now apply round64_le].
  now rewrite round64_zero.
Qed.

(** The lower bound of [flag_row] is not above its upper bound. *)
Lemma bounds_ordered (k m s : Q) :
  0 <= k -> 0 <= s -> fsub m (fmul k s) <= fadd m (fmul k s).
Proof.
  intros Hk Hs. unfold fsub, fadd. apply round64_le.
  assert (0 <= fmul k s) as H.
  { unfold fmul. apply round64_nonneg. now apply Qmult_le_0_compat. }
  lra.
Qed.
End Rounding.

(** ** The classifiers *)

Section Classifiers.
Import Pandas Float64 Analyze AnalyzeML.

(** What [flag_row] answers on cells that are all present. *)
Lemma flag_row_over (x m s : Q) :
  fadd m (fmul THRESHOLD_MULTIPLIER s) < x ->
  flag_row (Some x) (Some m) (Some s) = (true, Some "over-priced"%string).
Proof.
  intro H. unfold flag_row. apply Qltb_lt in H. now rewrite H.
Qed.

Lemma flag_row_normal (x m s : Q) :
  fsub m (fmul THRESHOLD_MULTIPLIER s) <= x <= fadd m (fmul THRESHOLD_MULTIPLIER s) ->
  flag_row (Some x) (Some m) (Some s) = (false, None).
Proof.
  intros [Hlo Hhi]. unfold flag_row.
  apply Qltb_ge in Hlo, Hhi. now rewrite Hhi, Hlo.
Qed.

(** [flag_row] never answers a flag without a category, nor a category
    without a flag. *)
Lemma flag_row_agree (x m s : option Q) :
  fst (flag_row x m s) = true <-> snd (flag_row x m s) <> None.
Proof.
  unfold flag_row.
  destruct x as [x|], m as [m|], s as [s|]; simpl;
    try (split; [discriminate | intro H; now elim H]).
  destruct (Qltb _ x); simpl; [split; [discriminate | reflexivity] |].
  destruct (Qltb x _); simpl; split; try discriminate; try reflexivity.
  intro H; now elim H.
Qed.

Lemma classify_deviation_agree (d : Q) :
  fst (classify_deviation d) = true <-> snd (classify_deviation d) <> None.
Proof.
  unfold classify_deviation; simpl. rewrite Qltb_abs.
  destruct (Qltb DEVIATION_THRESHOLD d); simpl;
    [split; [discriminate | reflexivity] |].
  destruct (Qltb d (- DEVIATION_THRESHOLD)); simpl; split;
    try discriminate; try reflexivity.
  intro H; now elim H.
Qed.
End Classifiers.

Section ClassifierClaims.
Import Pandas Float64 Analyze AnalyzeML.

Lemma classify_deviation_normal (d : Q) :
  - DEVIATION_THRESHOLD <= d <= DEVIATION_THRESHOLD ->
  classify_deviation d = (false, None).
Proof.
  intros [Hlo Hhi]. unfold classify_deviation. rewrite Qltb_abs.
  apply Qltb_ge in Hlo, Hhi. now rewrite Hhi, Hlo.
Qed.

(** C2, as the code has it: with mean 100, standard deviation 10 and
    k = 1.5, a price-per-area of exactly 115 is normal, not over-priced, and
    exactly 85 is normal, not under-priced. *)
Lemma boundary_values_are_normal :
  THRESHOLD_MULTIPLIER == 1.5 /\
  flag_row (Some 115) (Some 100) (Some 10) = (false, None) /\
  flag_row (Some 85) (Some 100) (Some 10) = (false, None).
Proof. vm_compute. repeat split. Qed.

(** C2, amended: with mean 100, standard deviation 10 and k = 1.5, the
    price-per-area values 115, 114.999, 85 and 85.001 are all classified
    normal; the flag is raised strictly beyond the bounds, as at 115.001
    (over-priced) and 84.999 (under-priced). *)
Theorem threshold_boundary :
  flag_row (Some 115) (Some 100) (Some 10) = (false, None) /\
  flag_row (Some 114.999) (Some 100) (Some 10) = (false, None) /\
  flag_row (Some 85) (Some 100) (Some 10) = (false, None) /\
  flag_row (Some 85.001) (Some 100) (Some 10) = (false, None) /\
  flag_row (Some 115.001) (Some 100) (Some 10) = (true, Some "over-priced"%string) /\
  flag_row (Some 84.999) (Some 100) (Some 10) = (true, Some "under-priced"%string).
Proof. repeat split; vm_compute; reflexivity. Qed.

(** C3, as the code has it: the floats 0.755, 0.2 and 0.37.  As exact
    numbers the first is the second plus 1.5 times the third, so the
    price-per-area equals mean + k*sigma.  The bound [flag_row] computes is
    the float 0.7549999999999999, one unit in the last place below, and the
    listing is called over-priced. *)
Lemma exact_sum_is_flagged :
  let x := 6800435437329449 # 9007199254740992 in
  let m := 3602879701896397 # 18014398509481984 in
  let s := 3332663724254167 # 9007199254740992 in
  round64 x == x /\ round64 m == m /\ round64 s == s /\
  x == m + THRESHOLD_MULTIPLIER * s /\
  fadd m (fmul THRESHOLD_MULTIPLIER s) == 850054429666181 # 1125899906842624 /\
  flag_row (Some x) (Some m) (Some s) = (true, Some "over-priced"%string).
Proof. vm_compute. repeat split. Qed.

(** C3, amended: both strategies test strict inequalities against the
    bounds as they are computed.  A price-per-area equal to the upper bound
    [mu + k * sigma] or to the lower bound [mu - k * sigma] of [flag_row],
    each the float the code computes (sigma a standard deviation, so not
    negative), gets the verdict normal, and a deviation percentage equal to
    +T or to -T gets the verdict normal from the model-residual
    classification. *)
Theorem thresholds_are_strict (x m s d : Q) :
  (0 <= s ->
   x == fadd m (fmul THRESHOLD_MULTIPLIER s) \/
   x == fsub m (fmul THRESHOLD_MULTIPLIER s) ->
   flag_row (Some x) (Some m) (Some s) = (false, None)) /\
  (d == DEVIATION_THRESHOLD \/ d == - DEVIATION_THRESHOLD ->
   classify_deviation d = (false, None)).
Proof.
  split.
  - intros Hs Hx. apply flag_row_normal.
    assert (0 <= THRESHOLD_MULTIPLIER) as Hk by discriminate.
    pose proof (bounds_ordered m Hk Hs) as Hb.
    destruct Hx as [Hx | Hx]; rewrite Hx; split; lra.
  - intros Hd. apply classify_deviation_normal.
    unfold DEVIATION_THRESHOLD in *. destruct Hd as [Hd | Hd]; lra.
Qed.

Lemma thresholds_are_strict_witness :
  (flag_row (Some 115) (Some 100) (Some 10) = (false, None) /\
   flag_row (Some 85) (Some 100) (Some 10) = (false, None) /\
   flag_row (Some (850054429666181 # 1125899906842624))
            (Some (3602879701896397 # 18014398509481984))
            (Some (3332663724254167 # 9007199254740992)) = (false, None)) /\
  (classify_deviation 15 = (false, None) /\
   classify_deviation (-15) = (false, None)).
Proof.
  split; [split; [| split] | split].
  - apply (proj1 (thresholds_are_strict 115 100 10 0)).
    + discriminate.
    + left. vm_compute. reflexivity.
  - apply (proj1 (thresholds_are_strict 85 100 10 0)).
    + discriminate.
    + right. vm_compute. reflexivity.
  - apply (proj1 (thresholds_are_strict
                    (850054429666181 # 1125899906842624)
                    (3602879701896397 # 18014398509481984)
                    (3332663724254167 # 9007199254740992) 0)).
    + discriminate.
    + left. vm_compute. reflexivity.
  - apply (proj2 (thresholds_are_strict 0 0 0 15)). left. reflexivity.
  - apply (proj2 (thresholds_are_strict 0 0 0 (-15))). right. reflexivity.
Defined.

(** C9: [calculate_deviation] is (actual - predicted) / predicted * 100 when
    the predicted price is not zero and 0 when it is zero; for a predicted
    price of 200000 and an actual price of 250000 it is +25, which the
    model-residual classification calls over-priced at the threshold 15. *)
Theorem calculate_deviation_spec (actual predicted : Q) :
  (~ predicted == 0 ->
   calculate_deviation actual predicted
   == (actual - predicted) / predicted * 100) /\
  (predicted == 0 -> calculate_deviation actual predicted = 0) /\
  calculate_deviation 250000 200000 == 25 /\
  DEVIATION_THRESHOLD = 15 /\
  classify_deviation (calculate_deviation 250000 200000)
  = (true, Some "over-priced"%string).
Proof.
  split; [| split; [| split; [| split]]];
    [| | reflexivity | reflexivity | reflexivity].
  - intro Hp. unfold calculate_deviation.
    destruct (Qeq_bool predicted 0) eqn:E.
    + apply Qeq_bool_iff in E. contradiction.
    + reflexivity.
  - intro Hp. unfold calculate_deviation.
    apply Qeq_bool_iff in Hp. now rewrite Hp.
Qed.

Lemma calculate_deviation_spec_witness :
  calculate_deviation 250000 200000 == (250000 - 200000) / 200000 * 100 /\
  calculate_deviation 250000 0 = 0.
Proof.
  split.
  - apply (proj1 (calculate_deviation_spec 250000 200000)). discriminate.
  - apply (proj1 (proj2 (calculate_deviation_spec 250000 0))). reflexivity.
Defined.

(** C10: in every verdict of either engine the flag and the category
    agree: [is_anomaly] is true exactly when [anomaly_type] is not null. *)
Theorem flag_and_category_agree
        (sqrtQ : Q -> Q) (zip : string) (db : Store.DB)
        (Model : Type)
        (predict : Model -> option Q * option Q * option Q * option Q -> Q)
        (model : option Model) (df : list Store.Listing) :
  Forall (fun v => v_is_anomaly v = true <-> v_anomaly_type v <> None)
         (Analyze.records sqrtQ zip db) /\
  Forall (fun s => sc_is_anomaly s = true <-> sc_anomaly_type s <> None)
         (AnalyzeML.records sqrtQ predict model df).
Proof.
  split; apply Forall_forall; intros r Hr.
  - unfold Analyze.records in Hr. apply in_map_iff in Hr.
    destruct Hr as [l [<- _]]. simpl. apply flag_row_agree.
  - unfold AnalyzeML.records in Hr. apply in_map_iff in Hr.
    destruct Hr as [l [<- _]]. unfold scored.
    destruct model as [mdl|]; simpl.
    + apply classify_deviation_agree.
    + split; [discriminate | intro H; now elim H].
Qed.
End ClassifierClaims.

(** ** The two upsert statements *)

Section ListFacts.
Variables (A B : Type).

Lemma filter_filter (p q : A -> bool) (l : list A) :
  filter p (filter q l) = filter (fun x => q x && p x) l.
Proof.
  induction l as [|a l IH]; simpl; [reflexivity|].
  destruct (q a); simpl; [destruct (p a) |]; now rewrite IH.
Qed.

(** Deleting rows keeps the keys of a table distinct. *)
Lemma NoDup_keys_filter (keep : A -> bool) (key : A -> B) (rows : list A)
      (Hkeys : NoDup (map key rows)) :
  NoDup (map key (filter keep rows)).
Proof.
  induction rows as [|r rows IH]; simpl; [constructor|].
  simpl in Hkeys. apply NoDup_cons_iff in Hkeys. destruct Hkeys as [Hfresh Hrest].
  destruct (keep r); simpl; [| now apply IH].
  constructor; [| now apply IH].
  rewrite in_map_iff. intros [x [Hx Hin]]. apply filter_In in Hin.
  apply Hfresh. rewrite in_map_iff. exists x. tauto.
Qed.

Lemma filter_none (p : A -> bool) (l : list A) :
  (forall x, In x l -> p x = false) -> filter p l = [].
Proof.
  induction l as [|a l IH]; intros H; simpl; [reflexivity|].
  rewrite (H a (or_introl eq_refl)). apply IH. intros x Hx. apply H. now right.
Qed.

(** Two rows of a table without duplicate keys that share a key are the
    same row. *)
Lemma NoDup_map_same (f : A -> B) (l : list A) (x y : A) :
  NoDup (map f l) -> In x l -> In y l -> f x = f y -> x = y.
Proof.
  induction l as [|a l IH]; simpl; intros H Hx Hy Hf; [contradiction|].
  inversion H as [|? ? Hnotin Hrest]; subst.
  destruct Hx as [-> | Hx], Hy as [-> | Hy]; auto.
  - elim Hnotin. rewrite Hf. now apply in_map.
  - elim Hnotin. rewrite <- Hf. now apply in_map.
Qed.
End ListFacts.

Section UpsertFacts.
Import Store.
Variables (R K : Type) (key : R -> K) (K_eqb : K -> K -> bool).
Hypothesis K_eqb_eq : forall a b, K_eqb a b = true <-> a = b.

Lemma K_eqb_refl (a : K) : K_eqb a a = true.
Proof. now apply K_eqb_eq. Qed.

(** *** [INSERT OR REPLACE] on a table that carries the key *)

Definition replaces (recs : list R) (old : R) : bool :=
  existsb (fun r => K_eqb (key r) (key old)) recs.

Lemma replaces_keys (recs recs' : list R) (old : R) :
  map key recs = map key recs' -> replaces recs old = replaces recs' old.
Proof.
  revert recs'. induction recs as [|r recs IH]; intros [|r' recs'] H;
    simpl in *; try discriminate; [reflexivity|].
  injection H as Hk Hrest. now rewrite Hk, (IH _ Hrest).
Qed.

Lemma replaces_in (recs : list R) (r : R) : In r recs -> replaces recs r = true.
Proof.
  intro H. apply existsb_exists. exists r. split; [exact H | apply K_eqb_refl].
Qed.

Lemma replaces_false (recs : list R) (old : R) :
  replaces recs old = false -> ~ In (key old) (map key recs).
Proof.
  intros H Hin. apply in_map_iff in Hin. destruct Hin as [r [Hk Hr]].
  assert (replaces recs old = true) as Ht
      by (apply existsb_exists; exists r; split; [exact Hr | now apply K_eqb_eq]).
  congruence.
Qed.

(** A batch of records with distinct keys deletes the rows it replaces
    and is appended in its own order. *)
Lemma insert_or_replace_batch (recs tbl : list R) :
  NoDup (map key recs) ->
  fold_left (fun t r => insert_or_replace key K_eqb true r t) recs tbl
  = filter (fun old => negb (replaces recs old)) tbl ++ recs.
Proof.
  revert tbl. induction recs as [|r recs IH]; intros tbl Hnd; simpl.
  - now rewrite filter_true, app_nil_r.
  - inversion Hnd as [|? ? Hnotin Hrest]; subst.
    rewrite (IH _ Hrest). unfold insert_or_replace.
    rewrite filter_app, filter_filter. simpl.
    assert (replaces recs r = false) as Hr.
    { apply not_true_iff_false. intro Ht. apply Hnotin.
      apply existsb_exists in Ht. destruct Ht as [r' [Hin Hk]].
      apply K_eqb_eq in Hk. rewrite <- Hk. now apply in_map. }
    rewrite Hr. simpl. rewrite <- app_assoc. simpl. f_equal.
    apply filter_ext. intro old. now rewrite negb_orb.
Qed.

(** Run again with records of the same keys, the batch leaves the rows it
    does not name where they are and puts the new records in place of
    the old ones. *)
Lemma insert_or_replace_again (recs recs' tbl : list R) :
  NoDup (map key recs) ->
  map key recs' = map key recs ->
  fold_left (fun t r => insert_or_replace key K_eqb true r t) recs'
            (fold_left (fun t r => insert_or_replace key K_eqb true r t) recs tbl)
  = filter (fun old => negb (replaces recs old)) tbl ++ recs'.
Proof.
  intros Hnd Hk.
  rewrite (insert_or_replace_batch recs tbl Hnd).
  rewrite insert_or_replace_batch by (now rewrite Hk).
  f_equal. rewrite filter_app, filter_filter.
  replace (filter (fun old => negb (replaces recs' old)) recs) with (@nil R).
  - rewrite app_nil_r. apply filter_ext. intro old.
    rewrite (replaces_keys recs' recs old Hk). now destruct (replaces recs old).
  - symmetry. apply filter_none. intros x Hx.
    rewrite (replaces_keys recs' recs x Hk), replaces_in by exact Hx.
    reflexivity.
Qed.

Lemma insert_or_replace_batch_keys (recs tbl : list R) :
  NoDup (map key recs) ->
  NoDup (map key tbl) ->
  NoDup (map key (filter (fun old => negb (replaces recs old)) tbl ++ recs)).
Proof.
  intros Hr Ht. rewrite map_app. apply NoDup_app.
  - now apply NoDup_keys_filter.
  - exact Hr.
  - intros k Hin Hin'. apply in_map_iff in Hin. destruct Hin as [x [<- Hx]].
    apply filter_In in Hx. destruct Hx as [_ Hx].
    apply negb_true_iff in Hx. now apply (replaces_false _ _ Hx).
Qed.
End UpsertFacts.

Section OnConflictFacts.
Import Store.
Variables (R K : Type) (key : R -> K) (K_eqb : K -> K -> bool).
Hypothesis K_eqb_eq : forall a b, K_eqb a b = true <-> a = b.

(** [set old new] is the [DO UPDATE SET] clause; [strip] forgets the
    columns that are allowed to differ between two runs. *)
Variables (set : R -> R -> R) (strip : R -> R).
Hypothesis key_strip : forall x, key (strip x) = key x.
Hypothesis key_set : forall a b, key (set a b) = key a.
Hypothesis strip_set : forall a b, strip (set a b) = set (strip a) (strip b).
Hypothesis set_set : forall a b, set (set a b) b = set a b.
Hypothesis set_same : forall a, set a a = a.

Abbreviation upsert := (on_conflict_do_update key K_eqb set).
Abbreviation batch := (fold_left (fun t r => upsert r t)).

(** The table already holds what record [r] would write. *)
Definition settled (r : R) (tbl : list R) : Prop :=
  exists x, In x tbl /\ key x = key r /\ set (strip x) (strip r) = strip x.

Lemma map_key_strip (tbl : list R) : map key (map strip tbl) = map key tbl.
Proof. rewrite map_map. apply map_ext. exact key_strip. Qed.

Lemma upsert_keys (r : R) (tbl : list R) :
  NoDup (map key tbl) -> NoDup (map key (upsert r tbl)).
Proof.
  intro Hnd. unfold on_conflict_do_update.
  destruct (existsb _ tbl) eqn:E.
  - rewrite map_map.
    replace (map _ tbl) with (map key tbl); [exact Hnd|].
    apply map_ext. intro x. destruct (K_eqb _ _); [now rewrite key_set | reflexivity].
  - rewrite map_app. simpl. apply NoDup_app; [exact Hnd | repeat constructor; intros [] |].
    intros k Hin [<- | []]. apply in_map_iff in Hin. destruct Hin as [x [Hk Hx]].
    assert (existsb (fun old => K_eqb (key r) (key old)) tbl = true) as Ht
        by (apply existsb_exists; exists x; split; [exact Hx | now apply K_eqb_eq]).
    congruence.
Qed.

Lemma batch_keys (recs tbl : list R) :
  NoDup (map key tbl) -> NoDup (map key (batch recs tbl)).
Proof.
  revert tbl. induction recs as [|r recs IH]; intros tbl Hnd; simpl; [exact Hnd|].
  apply IH. now apply upsert_keys.
Qed.

Lemma upsert_settles (r : R) (tbl : list R) : settled r (upsert r tbl).
Proof.
  unfold on_conflict_do_update, settled.
  destruct (existsb _ tbl) eqn:E.
  - apply existsb_exists in E. destruct E as [x [Hx Hk]].
    exists (set x r). split; [| split].
    + apply in_map_iff. exists x. now rewrite Hk.
    + rewrite key_set. symmetry. now apply K_eqb_eq.
    + now rewrite strip_set, set_set.
  - exists r. split; [apply in_or_app; right; now left | split; [reflexivity|]].
    apply set_same.
Qed.

Lemma upsert_keeps_settled (r r' : R) (tbl : list R) :
  key r <> key r' -> settled r tbl -> settled r (upsert r' tbl).
Proof.
  intros Hne [x [Hx [Hk Hs]]]. exists x. split; [| now split].
  unfold on_conflict_do_update. destruct (existsb _ tbl).
  - apply in_map_iff. exists x. split; [| exact Hx].
    destruct (K_eqb (key r') (key x)) eqn:E; [| reflexivity].
    apply K_eqb_eq in E. congruence.
  - apply in_or_app. now left.
Qed.

Lemma batch_keeps_settled (r : R) (recs tbl : list R) :
  ~ In (key r) (map key recs) -> settled r tbl -> settled r (batch recs tbl).
Proof.
  revert tbl. induction recs as [|r' recs IH]; intros tbl Hnotin Hs; simpl; [exact Hs|].
  apply IH.
  - intro Hin. apply Hnotin. now right.
  - apply upsert_keeps_settled; [| exact Hs].
    intro Hk. apply Hnotin. left. now symmetry.
Qed.

Lemma batch_settles (recs tbl : list R) :
  NoDup (map key recs) -> Forall (fun r => settled r (batch recs tbl)) recs.
Proof.
  revert tbl. induction recs as [|r recs IH]; intros tbl Hnd; simpl; constructor.
  - inversion Hnd; subst. apply batch_keeps_settled; [assumption |].
    apply upsert_settles.
  - inversion Hnd; subst. now apply IH.
Qed.

Lemma upsert_settled (r : R) (tbl : list R) :
  NoDup (map key tbl) -> settled r tbl -> map strip (upsert r tbl) = map strip tbl.
Proof.
  intros Hnd [x [Hx [Hk Hs]]]. unfold on_conflict_do_update.
  assert (existsb (fun old => K_eqb (key r) (key old)) tbl = true) as ->
      by (apply existsb_exists; exists x; split; [exact Hx | now apply K_eqb_eq]).
  rewrite map_map. apply map_ext_in. intros y Hy.
  destruct (K_eqb (key r) (key y)) eqn:E; [| reflexivity].
  apply K_eqb_eq in E.
  assert (x = y) as <- by (apply (NoDup_map_same key tbl); congruence).
  now rewrite strip_set.
Qed.

Lemma settled_strip (r r' : R) (tbl tbl' : list R) :
  map strip tbl = map strip tbl' -> strip r = strip r' ->
  settled r tbl -> settled r' tbl'.
Proof.
  intros Ht Hr [x [Hx [Hk Hs]]].
  assert (In (strip x) (map strip tbl')) as Hin by (rewrite <- Ht; now apply in_map).
  apply in_map_iff in Hin. destruct Hin as [x' [Hx' Hin]].
  exists x'. split; [exact Hin | split].
  - rewrite <- (key_strip x'), Hx', key_strip, Hk.
    now rewrite <- (key_strip r), Hr, key_strip.
  - now rewrite Hx', <- Hr.
Qed.

Lemma batch_settled (recs tbl : list R) :
  NoDup (map key tbl) -> Forall (fun r => settled r tbl) recs ->
  map strip (batch recs tbl) = map strip tbl.
Proof.
  revert tbl. induction recs as [|r recs IH]; intros tbl Hnd Hall; simpl; [reflexivity|].
  inversion Hall as [|? ? Hr Hrest]; subst.
  pose proof (upsert_settled Hnd Hr) as Hstep.
  rewrite IH; [exact Hstep | now apply upsert_keys |].
  apply Forall_forall. intros r' Hr'.
  apply (settled_strip (r := r') (tbl := tbl)); [now symmetry | reflexivity |].
  now apply (proj1 (Forall_forall _ _) Hrest).
Qed.

(** Run again with records that differ only in what [strip] forgets, the
    batch changes nothing else in the table. *)
Lemma on_conflict_do_update_again (recs recs' tbl : list R) :
  NoDup (map key recs) ->
  NoDup (map key tbl) ->
  map strip recs' = map strip recs ->
  map strip (batch recs' (batch recs tbl)) = map strip (batch recs tbl).
Proof.
  intros Hr Ht Hs. apply batch_settled; [now apply batch_keys |].
  apply Forall_forall. intros r' Hr'.
  assert (In (strip r') (map strip recs)) as Hin by (rewrite <- Hs; now apply in_map).
  apply in_map_iff in Hin. destruct Hin as [r [Hsr Hin]].
  apply (settled_strip (r := r) (tbl := batch recs tbl)); [reflexivity | exact Hsr |].
  now apply (proj1 (Forall_forall _ _) (batch_settles recs tbl Hr)).
Qed.
End OnConflictFacts.

(** ** The statistical engine: groups, records and reruns *)

Section AnalyzeFacts.
Import Pandas Time Store Analyze.
Variable sqrtQ : Q -> Q.

Lemma key_eqb_eq (a b : string * string) : key_eqb a b = true <-> a = b.
Proof.
  destruct a as [a1 a2], b as [b1 b2]. unfold key_eqb. simpl.
  rewrite andb_true_iff, !String.eqb_eq. split; [intros [-> ->] | intros [= -> ->]]; auto.
Qed.

Lemma gs_key_eqb_eq (a b : string * string * Z) : gs_key_eqb a b = true <-> a = b.
Proof.
  destruct a as [[a1 a2] a3], b as [[b1 b2] b3]. unfold gs_key_eqb.
  rewrite !andb_true_iff, !String.eqb_eq, Z.eqb_eq.
  split; [intros [[-> ->] ->] | intros [= -> -> ->]]; auto.
Qed.

Lemma in_insert_sorted (A : Type) (leb : A -> A -> bool) (x y : A) (l : list A) :
  In y (insert_sorted leb x l) <-> y = x \/ In y l.
Proof.
  induction l as [|h t IH]; simpl; [intuition|].
  destruct (leb x h); simpl; [intuition|]. rewrite IH. intuition.
Qed.

Lemma NoDup_insert_sorted (A : Type) (leb : A -> A -> bool) (x : A) (l : list A) :
  ~ In x l -> NoDup l -> NoDup (insert_sorted leb x l).
Proof.
  induction l as [|h t IH]; simpl; intros Hx Hnd; [repeat constructor; auto|].
  destruct (leb x h); [now constructor|].
  inversion Hnd; subst. constructor.
  - rewrite in_insert_sorted. intuition.
  - apply IH; intuition.
Qed.

(** [groupby] yields every key once. *)
Lemma group_keys_NoDup (df : list Listing) : NoDup (group_keys df).
Proof.
  induction df as [|l df IH]; simpl; [constructor|].
  destruct (group_key l) as [k|]; [| exact IH].
  unfold add_key. destruct (existsb (key_eqb k) (group_keys df)) eqn:E; [exact IH|].
  apply NoDup_insert_sorted; [| exact IH].
  intro Hin. apply not_true_iff_false in E. apply E.
  apply existsb_exists. exists k. split; [exact Hin | now apply key_eqb_eq].
Qed.

Lemma gs_records_keys (now : nat -> Z) (zip : string) (db : DB) :
  NoDup (map gs_key (gs_records sqrtQ now zip db)).
Proof.
  unfold gs_records, groupby_agg. rewrite !map_map. simpl.
  generalize (group_keys_NoDup (frame zip db)).
  generalize (group_keys (frame zip db)) as ks.
  induction ks as [|k ks IH]; simpl; intro Hnd; [constructor|].
  inversion Hnd; subst. constructor; [| now apply IH].
  intro Hin. apply in_map_iff in Hin. destruct Hin as [k' [Hk Hin]].
  unfold gs_key in Hk. simpl in Hk.
  destruct k as [z t], k' as [z' t']. simpl in Hk.
  injection Hk as -> ->. contradiction.
Qed.

Lemma frame_ids (zip : string) (db : DB) :
  NoDup (map listing_id (listings db)) ->
  NoDup (map listing_id (frame zip db)).
Proof.
  intro H. unfold frame, select_zip. now do 2 apply NoDup_keys_filter.
Qed.

Lemma stamp_ids (now : nat -> Z) (first : nat) (vs : list Verdict) :
  map la_listing_id (stamp now first vs) = map v_listing_id vs.
Proof.
  revert first. induction vs as [|v vs IH]; intro first; simpl; [reflexivity|].
  now rewrite IH.
Qed.

Lemma stamp_unstamped (now now' : nat -> Z) (first first' : nat) (vs : list Verdict) :
  map unstamped (stamp now first vs) = map unstamped (stamp now' first' vs).
Proof.
  revert first first'. induction vs as [|v vs IH]; intros first first'; simpl;
    [reflexivity|].
  now rewrite (IH (S first) (S first')).
Qed.

Lemma records_ids (zip : string) (db : DB) :
  map v_listing_id (records sqrtQ zip db) = map listing_id (frame zip db).
Proof. unfold records. rewrite map_map. reflexivity. Qed.

(** The engine writes no listing. *)
Lemma analyze_and_store_listings (d : Dialect) (now : nat -> Z) (zip : string) (db : DB) :
  listings (analyze_and_store sqrtQ d now zip db) = listings db.
Proof. unfold analyze_and_store. now destruct (select_zip zip db). Qed.

(** What a run computes depends on the store through [listings] only, and
    on the clock through the run date and the stamps only. *)
Lemma records_listings (zip : string) (db db' : DB) :
  listings db' = listings db -> records sqrtQ zip db' = records sqrtQ zip db.
Proof. unfold records, frame, select_zip. now intros ->. Qed.

Lemma gs_records_listings (now now' : nat -> Z) (zip : string) (db db' : DB) :
  listings db' = listings db -> date_of (now' 0%nat) = date_of (now 0%nat) ->
  gs_records sqrtQ now' zip db' = gs_records sqrtQ now zip db.
Proof. unfold gs_records, frame, select_zip. now intros -> ->. Qed.

Lemma unstamped_set_row (a b : Analysis) :
  unstamped (Analyze.set_row a b) = Analyze.set_row (unstamped a) (unstamped b).
Proof. reflexivity. Qed.

Lemma set_row_same (a : Analysis) : Analyze.set_row a a = a.
Proof. now destruct a. Qed.

Lemma set_group_stat_same (a : GroupStat) : set_group_stat a a = a.
Proof. now destruct a. Qed.
End AnalyzeFacts.

Section Rerun.
Import Pandas Time Store Analyze.

(** C1, on the code: two runs on the same listings and the same date, on
    the SQLite store of the repository.  [group_stats] carries no key there
    for [INSERT OR REPLACE] to replace on, so the second run stores every
    baseline a second time, with the same values: each (zip_code,
    property_type, stat_date) is held by two rows.  The PostgreSQL statement
    of the same function leaves one row per key on the same input, and
    [listing_analysis] holds one row per listing on either dialect. *)
Theorem second_run_duplicates_baselines :
  let run d now db := analyze_and_store Qsqrt d now Examples.zip db in
  let once d := run d Examples.noon Examples.five_houses in
  let twice d := run d Examples.evening (once d) in
  sqlite_group_stats_unique = false /\
  date_of (Examples.noon 0%nat) = date_of (Examples.evening 0%nat) /\
  listings (once sqlite) = listings Examples.five_houses /\
  map gs_key (group_stats (once sqlite))
  = [("12345", "Condo", 20393%Z); ("12345", "House", 20393%Z)]%string /\
  map gs_key (group_stats (twice sqlite))
  = [("12345", "Condo", 20393%Z); ("12345", "House", 20393%Z);
     ("12345", "Condo", 20393%Z); ("12345", "House", 20393%Z)]%string /\
  group_stats (twice sqlite) = group_stats (once sqlite) ++ group_stats (once sqlite) /\
  map gs_key (group_stats (twice postgresql))
  = [("12345", "Condo", 20393%Z); ("12345", "House", 20393%Z)]%string /\
  map la_listing_id (listing_analysis (twice sqlite))
  = ["h1"; "h2"; "h3"; "h4"; "h5"; "c1"]%string /\
  map la_listing_id (listing_analysis (twice postgresql))
  = ["h1"; "h2"; "h3"; "h4"; "h5"; "c1"]%string.
Proof. vm_compute. repeat split. Qed.

(** X21: what a second run keeps.  Running [analyze_and_store] twice on
    the same listings and the same run date leaves, after the second run,
    one [listing_analysis] row per listing_id with the values of the first
    run in every column but [analyzed_at], on either dialect; and with the
    PostgreSQL statement, on a [group_stats] table with one row per
    (zip_code, property_type, stat_date), the same [group_stats] rows, one
    per key. *)
Theorem rerun_keeps_verdicts_and_baselines
        (sqrtQ : Q -> Q) (d : Dialect) (now1 now2 : nat -> Z) (zip : string) (db : DB) :
  NoDup (map listing_id (listings db)) ->
  NoDup (map la_listing_id (listing_analysis db)) ->
  date_of (now2 0%nat) = date_of (now1 0%nat) ->
  let db1 := analyze_and_store sqrtQ d now1 zip db in
  let db2 := analyze_and_store sqrtQ d now2 zip db1 in
  listings db2 = listings db1 /\
  map unstamped (listing_analysis db2) = map unstamped (listing_analysis db1) /\
  NoDup (map la_listing_id (listing_analysis db2)) /\
  (d = postgresql -> NoDup (map gs_key (group_stats db)) ->
   group_stats db2 = group_stats db1 /\ NoDup (map gs_key (group_stats db2))).
Proof.
  intros Hids Hla Hdate db1 db2.
  assert (listings db1 = listings db) as Hl1 by apply analyze_and_store_listings.
  split; [apply analyze_and_store_listings|].
  subst db2. unfold analyze_and_store at 1 2 3 4.
  replace (select_zip zip db1) with (select_zip zip db)
    by (unfold select_zip; now rewrite Hl1).
  rewrite (records_listings sqrtQ zip _ _ Hl1).
  rewrite (gs_records_listings sqrtQ now1 now2 zip _ _ Hl1 Hdate).
  subst db1. unfold analyze_and_store.
  destruct (select_zip zip db) as [|l0 ls] eqn:Hsel.
  { repeat split; auto. }
  cbn [listings group_stats listing_analysis].
  set (vs := records sqrtQ zip db).
  assert (NoDup (map la_listing_id (stamp now1 1 vs))) as Hk1.
  { rewrite stamp_ids. unfold vs. rewrite records_ids. now apply frame_ids. }
  assert (map la_listing_id (stamp now2 1 vs) = map la_listing_id (stamp now1 1 vs))
    as Hk2 by (now rewrite !stamp_ids).
  pose proof (stamp_unstamped now2 now1 1 1 vs) as Hs.
  split; [| split].
  - destruct d; unfold upsert_analysis, sqlite_listing_analysis_unique.
    + rewrite (insert_or_replace_again _ _ String.eqb_eq _ _ _ Hk1 Hk2).
      rewrite (insert_or_replace_batch _ _ String.eqb_eq _ _ Hk1).
      rewrite !map_app. now rewrite Hs.
    + apply (on_conflict_do_update_again _ _ String.eqb_eq);
        auto using unstamped_set_row, set_row_same.
  - destruct d; unfold upsert_analysis, sqlite_listing_analysis_unique.
    + rewrite (insert_or_replace_again _ _ String.eqb_eq _ _ _ Hk1 Hk2).
      rewrite map_app, Hk2, <- map_app.
      apply (insert_or_replace_batch_keys _ _ String.eqb_eq); assumption.
    + do 2 (apply (batch_keys _ _ String.eqb_eq); auto).
  - intros -> Hgs. unfold upsert_group_stat.
    pose proof (gs_records_keys sqrtQ now1 zip db) as Hg.
    split.
    + pose proof (on_conflict_do_update_again
                    gs_key _ gs_key_eqb_eq set_group_stat (fun g => g)
                    (fun _ => eq_refl) (fun _ _ => eq_refl) (fun _ _ => eq_refl)
                    (fun _ _ => eq_refl) set_group_stat_same
                    _ _ _ Hg Hgs eq_refl) as Hagain.
      now rewrite !map_id in Hagain.
    + do 2 (apply (batch_keys gs_key _ gs_key_eqb_eq); auto).
Qed.
End Rerun.

Section RerunWitness.
Import Pandas Time Store Analyze Examples.

Lemma rerun_keeps_verdicts_and_baselines_witness :
  let db1 := analyze_and_store Qsqrt postgresql noon zip five_houses in
  let db2 := analyze_and_store Qsqrt postgresql evening zip db1 in
  listings db2 = listings db1 /\
  map unstamped (listing_analysis db2) = map unstamped (listing_analysis db1) /\
  NoDup (map la_listing_id (listing_analysis db2)) /\
  group_stats db2 = group_stats db1 /\
  NoDup (map gs_key (group_stats db2)).
Proof.
  assert (NoDup (map listing_id (listings five_houses))) as Hids
      by (simpl; repeat constructor; simpl; intuition discriminate).
  assert (NoDup (map la_listing_id (listing_analysis five_houses))) as Hla
      by constructor.
  assert (date_of (evening 0%nat) = date_of (noon 0%nat)) as Hdate by reflexivity.
  destruct (rerun_keeps_verdicts_and_baselines
              Qsqrt postgresql noon evening zip five_houses Hids Hla Hdate)
    as [Hl [Hv [Hk Hg]]].
  repeat (split; [assumption|]).
  apply Hg; [reflexivity | constructor].
Defined.
End RerunWitness.

(** ** Groups too small for a standard deviation *)

Section SmallGroups.
Import Pandas Time Store Analyze.
Variable sqrtQ : Q -> Q.

Lemma agg_std_small (xs : list (option Q)) :
  (agg_count xs < 2)%nat -> agg_std sqrtQ xs = None.
Proof.
  unfold agg_count, agg_std. intro H.
  apply Nat.ltb_lt in H. now rewrite H.
Qed.

Lemma flag_row_no_sigma (x m : option Q) : flag_row x m None = (false, None).
Proof. now destruct x, m. Qed.

(** A row of [stats] holds the aggregates of the group of its key. *)
Lemma groupby_agg_sigma (df : list Listing) (s : Stats) :
  In s (groupby_agg sqrtQ df) ->
  sigma s = agg_std sqrtQ (map ppsq (filter (in_group (st_key s)) df)).
Proof.
  unfold groupby_agg. intro H. apply in_map_iff in H.
  destruct H as [k [<- _]]. reflexivity.
Qed.

Lemma merged_sigma_small (df : list Listing) (k : string * string) (l : Listing) :
  (agg_count (map ppsq (filter (in_group k) df)) < 2)%nat ->
  in_group k l = true ->
  merged_sigma (groupby_agg sqrtQ df) l = None.
Proof.
  intros Hsmall Hin. unfold merged_sigma, merged. unfold in_group in Hin.
  destruct (group_key l) as [k'|]; [| reflexivity].
  apply key_eqb_eq in Hin. subst k'.
  destruct (find _ _) as [s|] eqn:E; [| reflexivity].
  apply find_some in E. destruct E as [Hs Hk]. apply key_eqb_eq in Hk.
  rewrite (groupby_agg_sigma _ _ Hs), Hk. now apply agg_std_small.
Qed.

(** A standard deviation computed by the engine is not negative, for a
    square root that is not. *)
Lemma Qsqrt_nonneg (q : Q) : 0 <= Qsqrt q.
Proof.
  unfold Qsqrt. rewrite Qred_correct. unfold Qle. simpl.
  rewrite Z.mul_1_r. apply Z.sqrt_nonneg.
Qed.

Lemma groupby_agg_sigma_nonneg (df : list Listing) (s : Stats) (x : Q) :
  (forall q, 0 <= sqrtQ q) ->
  In s (groupby_agg sqrtQ df) -> sigma s = Some x -> 0 <= x.
Proof.
  intros Hsqrt Hs Hx. rewrite (groupby_agg_sigma _ _ Hs) in Hx.
  unfold agg_std in Hx. destruct (_ <? _)%nat; [discriminate|].
  injection Hx as <-. apply Hsqrt.
Qed.

End SmallGroups.


(** ** Quality status *)

Section QualityExclusion.
Import Pandas Time Store Examples.

(** The training population of the model-residual engine holds listings
    of status PASS only. *)
Lemma prepare_features_status (df : list Listing) (status : option string) :
  Forall (fun l => dq_status l = status) df ->
  Forall (fun l => dq_status l = status) (AnalyzeML.prepare_features df).
Proof.
  intro H. unfold AnalyzeML.prepare_features.
  apply Forall_forall. intros l Hl.
  repeat (apply in_map_iff in Hl; destruct Hl as [? [<- Hl]]).
  apply filter_In in Hl. simpl.
  now apply (proj1 (Forall_forall _ _) H).
Qed.

Lemma training_population_passed (now_ : Z) (zip : string) (days : Z) (db : DB) :
  Forall (fun l => dq_status l = Some "PASS"%string)
         (AnalyzeML.prepare_features (AnalyzeML.load_recent_listings now_ zip days db)).
Proof.
  apply prepare_features_status. apply Forall_forall. intros l Hl.
  unfold AnalyzeML.load_recent_listings in Hl. apply filter_In in Hl.
  destruct Hl as [_ Hl]. rewrite !andb_true_iff in Hl.
  destruct Hl as [_ Hl]. unfold opt_string_eqb in Hl.
  destruct (dq_status l) as [s|]; [| discriminate].
  apply String.eqb_eq in Hl. now subst.
Qed.

(** The statistical engine never reads the quality status: whatever status
    the listings are given, the baselines and the verdicts of a run are the
    same. *)
Lemma group_keys_relabel (status : Listing -> option string) (df : list Listing) :
  Analyze.group_keys (map (with_dq_status status) df) = Analyze.group_keys df.
Proof.
  induction df as [|l df IH]; simpl; [reflexivity|].
  rewrite IH. reflexivity.
Qed.

Lemma frame_relabel (status : Listing -> option string) (zip : string) (db : DB) :
  Analyze.frame zip (relabel status db)
  = map (with_dq_status status) (Analyze.frame zip db).
Proof.
  unfold Analyze.frame, Analyze.select_zip, relabel. simpl.
  now rewrite !filter_map_swap.
Qed.

Lemma groupby_agg_relabel (sqrtQ : Q -> Q) (status : Listing -> option string)
      (df : list Listing) :
  Analyze.groupby_agg sqrtQ (map (with_dq_status status) df)
  = Analyze.groupby_agg sqrtQ df.
Proof.
  unfold Analyze.groupby_agg. rewrite group_keys_relabel.
  apply map_ext. intro k. rewrite filter_map_swap, map_map. reflexivity.
Qed.

Lemma baseline_ignores_quality_status
      (sqrtQ : Q -> Q) (status : Listing -> option string)
      (now : nat -> Z) (zip : string) (db : DB) :
  Analyze.gs_records sqrtQ now zip (relabel status db)
  = Analyze.gs_records sqrtQ now zip db /\
  Analyze.records sqrtQ zip (relabel status db) = Analyze.records sqrtQ zip db.
Proof.
  unfold Analyze.gs_records, Analyze.records.
  rewrite frame_relabel, groupby_agg_relabel. split; [reflexivity|].
  rewrite map_map. reflexivity.
Qed.

(** C8, on the code: [analyze.analyze_and_store] reads every listing of
    the zip code, whatever its quality status.  With two PASS listings at
    100 and 110 per square foot and a failed one at 500, the stored baseline
    counts three listings and has mean 710/3; on the PASS listings alone it
    counts two and has mean 105.  The model-residual engine loads the two
    PASS listings only. *)
Theorem failed_listing_enters_baseline (sqrtQ : Q -> Q) (d : Dialect) :
  map (fun g => (gs_property_type g, gs_count_listings g, gs_mean_ppsq g))
      (group_stats (Analyze.analyze_and_store sqrtQ d noon zip with_failed))
  = [("House"%string, 3%nat, Some (710 # 3))] /\
  map (fun g => (gs_property_type g, gs_count_listings g, gs_mean_ppsq g))
      (group_stats (Analyze.analyze_and_store sqrtQ d noon zip passed_only))
  = [("House"%string, 2%nat, Some 105)] /\
  AnalyzeML.load_recent_listings (noon 1) zip AnalyzeML.default_days with_failed
  = listings passed_only.
Proof. destruct d; vm_compute; repeat split. Qed.
End QualityExclusion.

(** ** The predictive model: gating, failure and fallback *)

Section ModelGating.
Import Pandas Time Store AnalyzeML Scheduler.
Variable sqrtQ : Q -> Q.
Variable Model : Type.
Variable fit : list Listing -> result Model.
Variable predict : Model -> option Q * option Q * option Q * option Q -> Q.

Lemma prepare_features_length (df : list Listing) :
  length (prepare_features df)
  = length (filter (fun l => cell_gt (sq_ft l) 0 && cell_gt (price l) 0
                             && cell_gt (beds l) 0) df).
Proof. unfold prepare_features. now rewrite !length_map. Qed.

Lemma prepare_features_nil : prepare_features [] = [].
Proof. reflexivity. Qed.

(** [train_model] in terms of the size of the prepared population. *)
Lemma train_model_below (now_ : Z) (zip : string) (db : DB) :
  (length (prepare_features (load_recent_listings now_ zip default_days db))
   < MIN_TRAIN_SIZE)%nat ->
  train_model fit now_ zip db = Ok None.
Proof.
  intro H. unfold train_model.
  destruct (load_recent_listings now_ zip default_days db) as [|l ls]; [reflexivity|].
  destruct (prepare_features (l :: ls)) as [|x xs]; [reflexivity|].
  apply Nat.ltb_lt in H. now rewrite H.
Qed.

Lemma train_model_reached (now_ : Z) (zip : string) (db : DB) :
  (MIN_TRAIN_SIZE
   <= length (prepare_features (load_recent_listings now_ zip default_days db)))%nat ->
  train_model fit now_ zip db
  = match fit (prepare_features (load_recent_listings now_ zip default_days db)) with
    | Ok m => Ok (Some m)
    | Raise e => Raise e
    end.
Proof.
  intro H. unfold train_model.
  destruct (load_recent_listings now_ zip default_days db) as [|l ls];
    [simpl in H; unfold MIN_TRAIN_SIZE in H; lia|].
  destruct (prepare_features (l :: ls)) as [|x xs] eqn:E;
    [simpl in H; unfold MIN_TRAIN_SIZE in H; lia|].
  apply Nat.ltb_ge in H. now rewrite H.
Qed.

(** Without a model the run ends with a summary that says so. *)
Lemma analyze_and_store_untrained (d : Dialect) (now : nat -> Z) (zip : string) (db : DB) :
  train_model fit (now 1%nat) zip db = Ok None ->
  exists report db',
    analyze_and_store sqrtQ fit predict d now zip db = Ok (report, db')
    /\ model_trained report = false.
Proof.
  intro H. unfold analyze_and_store. rewrite H.
  destruct (load_recent_listings (now 2%nat) zip default_days db);
    eexists; eexists; split; reflexivity.
Qed.

(** In a run without a model no verdict is flagged. *)
Lemma statistics_only_records (df : list Listing) :
  Forall (fun s => sc_is_anomaly s = false /\ sc_anomaly_type s = None
                   /\ sc_dq_status s = Some "STAT_ONLY"%string)
         (records sqrtQ predict None df).
Proof.
  apply Forall_forall. intros s Hs. unfold records in Hs.
  apply in_map_iff in Hs. destruct Hs as [l [<- _]]. simpl. auto.
Qed.

(** C4, amended: the minimum training size is 500, a three-figure count.
    When the prepared quality-passing population is below it,
    [train_model] returns no model and the summary of the run has
    [model_trained] false; when the population reaches it, training is
    attempted: the result of [train_model] is what fitting yields. *)
Theorem model_gating (d : Dialect) (now : nat -> Z) (zip : string) (db : DB) :
  let population :=
    prepare_features (load_recent_listings (now 1%nat) zip default_days db) in
  MIN_TRAIN_SIZE = 500%nat /\
  ((length population < MIN_TRAIN_SIZE)%nat ->
   train_model fit (now 1%nat) zip db = Ok None /\
   exists report db',
     analyze_and_store sqrtQ fit predict d now zip db = Ok (report, db')
     /\ model_trained report = false) /\
  ((MIN_TRAIN_SIZE <= length population)%nat ->
   train_model fit (now 1%nat) zip db
   = match fit population with
     | Ok m => Ok (Some m)
     | Raise e => Raise e
     end).
Proof.
  intro population. split; [reflexivity | split].
  - intro H. pose proof (train_model_below _ _ _ H) as Ht.
    split; [exact Ht | now apply analyze_and_store_untrained].
  - apply train_model_reached.
Qed.

(** C6, amended: an exception raised while the model is fitted is not
    caught by the engine.  [train_model] and [analyze_and_store] end with
    that exception: no summary is returned and the store is left as it was.
    The caller, step 2 of [run_pipeline], catches it and logs the failure. *)
Theorem fit_exception_propagates
        (d : Dialect) (now : nat -> Z) (zip : string) (db : DB) (e : exn) :
  let population :=
    prepare_features (load_recent_listings (now 1%nat) zip default_days db) in
  (MIN_TRAIN_SIZE <= length population)%nat ->
  fit population = Raise e ->
  train_model fit (now 1%nat) zip db = Raise e /\
  analyze_and_store sqrtQ fit predict d now zip db = Raise e /\
  run_analysis_step sqrtQ fit predict d now zip db = (AnalysisFailed e, db).
Proof.
  intros population Hsize Hfit.
  assert (train_model fit (now 1%nat) zip db = Raise e) as Ht.
  { rewrite (train_model_reached _ _ _ Hsize). fold population. now rewrite Hfit. }
  assert (analyze_and_store sqrtQ fit predict d now zip db = Raise e) as Ha.
  { unfold analyze_and_store. now rewrite Ht. }
  repeat split; auto. unfold run_analysis_step. now rewrite Ha.
Qed.
End ModelGating.

Section ModelExamples.
Import Pandas Time Store AnalyzeML Scheduler Examples.

(** C4, as the code has it: the gate is 500.  A population of 500 is
    trained on, 499 is not; no four-figure count is involved. *)
Lemma gate_is_five_hundred :
  MIN_TRAIN_SIZE = 500%nat /\
  length (prepare_features
            (load_recent_listings (noon 1) zip default_days
                                  (population 500 (Some 2000)))) = 500%nat /\
  train_model fit_always (noon 1) zip (population 500 (Some 2000)) = Ok (Some tt) /\
  train_model fit_always (noon 1) zip (population 499 (Some 2000)) = Ok None.
Proof. vm_compute. repeat split. Qed.

Lemma model_gating_witness :
  (train_model fit_always (noon 1) zip (population 499 (Some 2000)) = Ok None /\
   exists report db',
     analyze_and_store Qsqrt fit_always predict_mean sqlite noon zip
                       (population 499 (Some 2000)) = Ok (report, db')
     /\ model_trained report = false) /\
  train_model fit_always (noon 1) zip (population 500 (Some 2000))
  = match fit_always
            (prepare_features
               (load_recent_listings (noon 1) zip default_days
                                     (population 500 (Some 2000)))) with
    | Ok m => Ok (Some m)
    | Raise e => Raise e
    end.
Proof.
  split.
  - apply (proj1 (proj2 (model_gating Qsqrt fit_always predict_mean sqlite noon zip
                                      (population 499 (Some 2000))))).
    vm_compute. lia.
  - apply (proj2 (proj2 (model_gating Qsqrt fit_always predict_mean sqlite noon zip
                                      (population 500 (Some 2000))))).
    vm_compute. lia.
Defined.

(** C6, as the code has it: 500 quality-passing listings without a
    construction year leave the year column missing after imputation (the
    median of an empty column is missing); an estimator that rejects such a
    matrix raises during fitting, and the run ends with that exception. *)
Lemma fit_failure_ends_the_run :
  train_model fit_validating (noon 1) zip (population 500 None)
  = Raise "ValueError"%string /\
  analyze_and_store Qsqrt fit_validating predict_mean sqlite noon zip
                    (population 500 None)
  = Raise "ValueError"%string.
Proof. vm_compute. split; reflexivity. Qed.

Lemma fit_exception_propagates_witness :
  train_model fit_validating (noon 1) zip (population 500 None)
  = Raise "ValueError"%string /\
  analyze_and_store Qsqrt fit_validating predict_mean postgresql noon zip
                    (population 500 None)
  = Raise "ValueError"%string /\
  run_analysis_step Qsqrt fit_validating predict_mean postgresql noon zip
                    (population 500 None)
  = (AnalysisFailed "ValueError"%string, population 500 None).
Proof.
  apply (@fit_exception_propagates Qsqrt unit fit_validating predict_mean postgresql
                                   noon zip (population 500 None) "ValueError"%string).
  - vm_compute. lia.
  - vm_compute. reflexivity.
Defined.

(** C7, on the code: a run of the model-residual engine without a model.
    House h1 stands at 105 per square foot in a segment of mean 100 and
    standard deviation 3, above 100 + 1.5 * 3, and [flag_row] calls such a
    listing over-priced; the run stores it with [is_anomaly] false and a
    null category, and counts no anomaly. *)
Theorem statistics_only_run_flags_nothing
        (Model : Type) (fit : list Listing -> result Model)
        (predict : Model -> option Q * option Q * option Q * option Q -> Q)
        (d : Dialect) :
  exists report db',
    analyze_and_store Qsqrt fit predict d noon zip five_houses = Ok (report, db') /\
    model_trained report = false /\
    ml_anomalies report = 0%nat /\
    map (fun r => (la_listing_id r, la_price_per_sqft r, la_mean_ppsq r, la_std_ppsq r,
                   la_is_anomaly r, la_anomaly_type r, la_dq_status r))
        (listing_analysis db')
    = [("h1", Some (105000 / 1000), Some 100, Some 3, false, None, Some "STAT_ONLY");
       ("h2", Some (97000 / 1000), Some 100, Some 3, false, None, Some "STAT_ONLY");
       ("h3", Some (99000 / 1000), Some 100, Some 3, false, None, Some "STAT_ONLY");
       ("h4", Some (99000 / 1000), Some 100, Some 3, false, None, Some "STAT_ONLY");
       ("h5", Some (100000 / 1000), Some 100, Some 3, false, None, Some "STAT_ONLY");
       ("c1", Some (300000 / 1000), Some 300, None, false, None, Some "STAT_ONLY")]%string /\
    Analyze.flag_row (Some (105000 / 1000)) (Some 100) (Some 3)
    = (true, Some "over-priced"%string).
Proof.
  destruct d; eexists; eexists; (split; [vm_compute; reflexivity |]);
    vm_compute; repeat split.
Qed.
End ModelExamples.

(** * Further properties of the engines *)

(** ** Rows an upsert leaves alone, and rows it writes *)

Section UpsertKeeps.
Import Store.
Variables (R K : Type) (key : R -> K) (K_eqb : K -> K -> bool).
Hypothesis K_eqb_eq : forall a b, K_eqb a b = true <-> a = b.

Lemma K_eqb_neq (a b : K) : a <> b -> K_eqb a b = false.
Proof.
  intro H. apply not_true_iff_false. intro E. apply H. now apply K_eqb_eq.
Qed.

Lemma insert_or_replace_keeps (c : bool) (r row : R) (tbl : list R) :
  key r <> key row -> In row tbl -> In row (insert_or_replace key K_eqb c r tbl).
Proof.
  intros Hne Hin. unfold insert_or_replace. apply in_or_app. left.
  apply filter_In. split; [exact Hin|].
  rewrite (K_eqb_neq Hne). now rewrite andb_false_r.
Qed.

Lemma on_conflict_do_update_keeps (set : R -> R -> R) (r row : R) (tbl : list R) :
  key r <> key row -> In row tbl -> In row (on_conflict_do_update key K_eqb set r tbl).
Proof.
  intros Hne Hin. unfold on_conflict_do_update. destruct (existsb _ tbl).
  - apply in_map_iff. exists row. split; [| exact Hin].
    now rewrite (K_eqb_neq Hne).
  - apply in_or_app. now left.
Qed.

(** On a table without the constraint the batch is appended. *)
Lemma insert_only_batch (recs tbl : list R) :
  fold_left (fun t r => insert_or_replace key K_eqb false r t) recs tbl = tbl ++ recs.
Proof.
  revert tbl. induction recs as [|r recs IH]; intro tbl; simpl.
  - now rewrite app_nil_r.
  - rewrite IH. unfold insert_or_replace. simpl.
    rewrite filter_true, <- app_assoc. reflexivity.
Qed.

(** A batch keeps every row whose key none of its records has. *)
Lemma batch_keeps (step : R -> list R -> list R) (recs tbl : list R) (row : R) :
  (forall r t, key r <> key row -> In row t -> In row (step r t)) ->
  ~ In (key row) (map key recs) -> In row tbl ->
  In row (fold_left (fun t r => step r t) recs tbl).
Proof.
  intros Hstep. revert tbl.
  induction recs as [|r recs IH]; intros tbl Hnotin Hin; simpl; [exact Hin|].
  apply IH.
  - intro H. apply Hnotin. now right.
  - apply Hstep; [| exact Hin]. intro Hk. apply Hnotin. now left.
Qed.

(** [DO UPDATE SET] changes no column that its clause leaves out: what a
    function [cols] reads of a row, when [set] keeps it, stays in the table. *)
Lemma on_conflict_do_update_cols (C : Type) (cols : R -> C) (set : R -> R -> R)
      (recs tbl : list R) (old : R) :
  (forall a b, cols (set a b) = cols a) ->
  In old tbl ->
  exists row,
    In row (fold_left (fun t r => on_conflict_do_update key K_eqb set r t) recs tbl)
    /\ cols row = cols old.
Proof.
  intros Hset. revert tbl old.
  induction recs as [|r recs IH]; intros tbl old Hin; simpl; [now exists old|].
  assert (exists row, In row (on_conflict_do_update key K_eqb set r tbl)
                      /\ cols row = cols old) as [row [Hrow Hc]].
  { unfold on_conflict_do_update. destruct (existsb _ tbl).
    - exists (if K_eqb (key r) (key old) then set old r else old). split.
      + apply in_map_iff. now exists old.
      + destruct (K_eqb _ _); [apply Hset | reflexivity].
    - exists old. split; [apply in_or_app; now left | reflexivity]. }
  destruct (IH _ _ Hrow) as [row' [Hrow' Hc']].
  exists row'. split; [exact Hrow' | congruence].
Qed.
End UpsertKeeps.

(** ** The statistical engine: what a run writes and what it leaves *)

Section AnalyzeWrites.
Import Pandas Time Store Analyze.
Variable sqrtQ : Q -> Q.

(** The tables after a run, whether or not the zip code has listings. *)
Lemma analyze_and_store_verdicts (d : Dialect) (now : nat -> Z) (zip : string) (db : DB) :
  listing_analysis (analyze_and_store sqrtQ d now zip db)
  = fold_left (fun tbl row => upsert_analysis d row tbl)
              (stamp now 1 (records sqrtQ zip db)) (listing_analysis db).
Proof.
  unfold analyze_and_store, records, frame.
  destruct (select_zip zip db); reflexivity.
Qed.

Lemma analyze_and_store_baselines (d : Dialect) (now : nat -> Z) (zip : string) (db : DB) :
  group_stats (analyze_and_store sqrtQ d now zip db)
  = fold_left (fun tbl rec => upsert_group_stat d rec tbl)
              (gs_records sqrtQ now zip db) (group_stats db).
Proof.
  unfold analyze_and_store, gs_records, frame.
  destruct (select_zip zip db); reflexivity.
Qed.

Lemma stamp_keys (now : nat -> Z) (zip : string) (db : DB) :
  NoDup (map listing_id (listings db)) ->
  NoDup (map la_listing_id (stamp now 1 (records sqrtQ zip db))).
Proof.
  intro H. rewrite stamp_ids, records_ids. now apply frame_ids.
Qed.

Lemma stamp_in (now : nat -> Z) (first : nat) (vs : list Verdict) (v : Verdict) :
  In v vs -> exists i, In (new_row v (now i)) (stamp now first vs).
Proof.
  revert first. induction vs as [|v' vs IH]; intros first Hin; [contradiction|].
  destruct Hin as [-> | Hin].
  - exists first. now left.
  - destruct (IH (S first) Hin) as [i Hi]. exists i. now right.
Qed.

Lemma stamp_rows (now : nat -> Z) (first : nat) (vs : list Verdict) (row : Analysis) :
  In row (stamp now first vs) -> exists v i, In v vs /\ row = new_row v (now i).
Proof.
  revert first. induction vs as [|v' vs IH]; intros first Hin; [contradiction|].
  destruct Hin as [<- | Hin].
  - exists v', first. split; [now left | reflexivity].
  - destruct (IH (S first) Hin) as [v [i [Hv Hrow]]].
    exists v, i. split; [now right | exact Hrow].
Qed.

(** X1: a run rewrites the verdicts of the listings it analyses and no
    other: a stored verdict whose listing is not in the frame of the run (a
    listing of another zip code, a listing without a positive area, a listing
    no longer stored) is still there, unchanged, after the run. *)
Theorem verdicts_outside_the_run_are_kept
        (d : Dialect) (now : nat -> Z) (zip : string) (db : DB) (row : Analysis) :
  In row (listing_analysis db) ->
  ~ In (la_listing_id row) (map listing_id (frame zip db)) ->
  In row (listing_analysis (analyze_and_store sqrtQ d now zip db)).
Proof.
  intros Hin Hout. rewrite analyze_and_store_verdicts.
  apply (batch_keeps la_listing_id (fun r t => upsert_analysis d r t)).
  - intros r t Hne Ht. destruct d; simpl.
    + now apply (insert_or_replace_keeps _ _ String.eqb_eq).
    + now apply (on_conflict_do_update_keeps _ _ String.eqb_eq).
  - now rewrite stamp_ids, records_ids.
  - exact Hin.
Qed.

(** X2: after a run every listing of the frame has a row in
    [listing_analysis] that holds its verdict: its price-per-area, the flag
    and category [flag_row] gives it, and the mean and standard deviation of
    its group. *)
Theorem every_listing_of_the_frame_has_its_verdict
        (d : Dialect) (now : nat -> Z) (zip : string) (db : DB) (l : Listing) :
  NoDup (map listing_id (listings db)) ->
  In l (frame zip db) ->
  let stats := groupby_agg sqrtQ (frame zip db) in
  exists row,
    In row (listing_analysis (analyze_and_store sqrtQ d now zip db)) /\
    la_listing_id row = listing_id l /\
    la_price_per_sqft row = ppsq l /\
    (la_is_anomaly row, la_anomaly_type row)
    = flag_row (ppsq l) (merged_mu stats l) (merged_sigma stats l) /\
    la_mean_ppsq row = merged_mu stats l /\
    la_std_ppsq row = merged_sigma stats l.
Proof.
  intros Hids Hl stats. rewrite analyze_and_store_verdicts.
  pose proof (stamp_keys now zip db Hids) as Hk.
  assert (In (verdict stats l) (records sqrtQ zip db)) as Hv
      by (unfold records; now apply in_map).
  destruct (stamp_in now 1 _ _ Hv) as [i Hi].
  set (r := new_row (verdict stats l) (now i)) in *.
  destruct d; unfold upsert_analysis, sqlite_listing_analysis_unique.
  - rewrite (insert_or_replace_batch _ _ String.eqb_eq _ _ Hk).
    exists r. split; [apply in_or_app; now right|].
    subst r. simpl. repeat split. now destruct (flag_row _ _ _).
  - pose proof (batch_settles la_listing_id _ String.eqb_eq Analyze.set_row (fun x => x)
                              (fun _ _ => eq_refl) (fun _ _ => eq_refl)
                              (fun _ _ => eq_refl) set_row_same
                              _ (listing_analysis db) Hk) as Hall.
    destruct (proj1 (Forall_forall _ _) Hall r Hi) as [x [Hx [Hkey Hset]]].
    exists x. split; [exact Hx|]. rewrite <- Hset. subst r. simpl.
    repeat split; auto. now destruct (flag_row _ _ _).
Qed.

(** X3: on SQLite a run blanks the model columns of every verdict it
    rewrites: [INSERT OR REPLACE] names seven columns and the replaced row
    is deleted, so [predicted_price], [deviation_percentage] and [dq_status]
    of a listing of the frame are null after the run. *)
Theorem sqlite_run_blanks_model_columns
        (now : nat -> Z) (zip : string) (db : DB) :
  NoDup (map listing_id (listings db)) ->
  Forall (fun row =>
            In (la_listing_id row) (map listing_id (frame zip db)) ->
            la_predicted_price row = None /\
            la_deviation_percentage row = None /\
            la_dq_status row = None)
         (listing_analysis (analyze_and_store sqrtQ sqlite now zip db)).
Proof.
  intro Hids. rewrite analyze_and_store_verdicts.
  pose proof (stamp_keys now zip db Hids) as Hk.
  unfold upsert_analysis, sqlite_listing_analysis_unique.
  rewrite (insert_or_replace_batch _ _ String.eqb_eq _ _ Hk).
  apply Forall_forall. intros row Hrow Hid.
  apply in_app_or in Hrow. destruct Hrow as [Hrow | Hrow].
  - apply filter_In in Hrow. destruct Hrow as [_ Hrow].
    apply negb_true_iff in Hrow.
    apply (replaces_false _ _ String.eqb_eq) in Hrow.
    rewrite stamp_ids, records_ids in Hrow. contradiction.
  - apply stamp_rows in Hrow. destruct Hrow as [v [i [_ ->]]]. simpl. auto.
Qed.

(** X4: on PostgreSQL a run keeps the model columns of every stored
    verdict: [DO UPDATE SET] names the statistical columns only, so for every
    row stored before the run a row with the same [listing_id],
    [predicted_price], [deviation_percentage] and [dq_status] is stored after
    it. *)
Theorem postgresql_run_keeps_model_columns
        (now : nat -> Z) (zip : string) (db : DB) :
  Forall (fun old =>
            exists row,
              In row (listing_analysis (analyze_and_store sqrtQ postgresql now zip db)) /\
              (la_listing_id row, la_predicted_price row,
               la_deviation_percentage row, la_dq_status row)
              = (la_listing_id old, la_predicted_price old,
                 la_deviation_percentage old, la_dq_status old))
         (listing_analysis db).
Proof.
  apply Forall_forall. intros old Hold. rewrite analyze_and_store_verdicts.
  unfold upsert_analysis.
  apply (on_conflict_do_update_cols
           la_listing_id String.eqb
           (fun r => (la_listing_id r, la_predicted_price r,
                      la_deviation_percentage r, la_dq_status r))
           Analyze.set_row).
  - reflexivity.
  - exact Hold.
Qed.
End AnalyzeWrites.

(** ** The statistical engine: segments and their baselines *)

Section Segments.
Import Pandas Time Store Analyze.
Variable sqrtQ : Q -> Q.

Lemma in_add_key (k x : string * string) (ks : list (string * string)) :
  In x (add_key k ks) <-> x = k \/ In x ks.
Proof.
  unfold add_key. destruct (existsb (key_eqb k) ks) eqn:E.
  - split; [now right | intros [-> | H]; [| exact H]].
    apply existsb_exists in E. destruct E as [y [Hy Hk]].
    apply key_eqb_eq in Hk. now subst.
  - apply in_insert_sorted.
Qed.

(** The groups are the keys that occur in the frame. *)
Lemma in_group_keys (df : list Listing) (k : string * string) :
  In k (group_keys df) <-> exists l, In l df /\ group_key l = Some k.
Proof.
  induction df as [|l df IH]; simpl.
  - split; [contradiction | now intros [l [[] _]]].
  - destruct (group_key l) as [k'|] eqn:E.
    + rewrite in_add_key, IH. split.
      * intros [-> | [l' [Hl' Hk]]]; [exists l; auto | exists l'; auto].
      * intros [l' [[<- | Hl'] Hk]]; [left; congruence | right; now exists l'].
    + rewrite IH. split.
      * intros [l' [Hl' Hk]]. exists l'. auto.
      * intros [l' [[<- | Hl'] Hk]]; [congruence | now exists l'].
Qed.

Lemma frame_zip (zip : string) (db : DB) (l : Listing) :
  In l (frame zip db) -> zip_code l = Some zip.
Proof.
  unfold frame, select_zip. intro H.
  apply filter_In in H. destruct H as [H _]. apply filter_In in H.
  destruct H as [_ H]. unfold opt_string_eqb in H.
  destruct (zip_code l) as [z|]; [| discriminate].
  apply String.eqb_eq in H. now subst.
Qed.

Lemma groupby_agg_row (df : list Listing) (s : Stats) :
  In s (groupby_agg sqrtQ df) ->
  In (st_key s) (group_keys df) /\
  mu s = agg_mean (map ppsq (filter (in_group (st_key s)) df)) /\
  n s = agg_count (map ppsq (filter (in_group (st_key s)) df)).
Proof.
  unfold groupby_agg. intro H. apply in_map_iff in H.
  destruct H as [k [<- Hk]]. simpl. auto.
Qed.

Lemma dropna_length (xs : list (option Q)) : (length (dropna xs) <= length xs)%nat.
Proof.
  induction xs as [|[x|] xs IH]; simpl; lia.
Qed.

(** X5: a run stores baselines for its own zip code and run date only, one
    per segment, and the listing count of a baseline never exceeds the number
    of listings of the frame. *)
Theorem baselines_belong_to_the_run (now : nat -> Z) (zip : string) (db : DB) :
  NoDup (map gs_key (gs_records sqrtQ now zip db)) /\
  Forall (fun g => gs_zip_code g = zip /\
                   gs_stat_date g = date_of (now 0%nat) /\
                   (gs_count_listings g <= length (frame zip db))%nat)
         (gs_records sqrtQ now zip db).
Proof.
  split; [apply gs_records_keys|].
  apply Forall_forall. intros g Hg. unfold gs_records in Hg.
  apply in_map_iff in Hg. destruct Hg as [s [<- Hs]]. simpl.
  destruct (groupby_agg_row _ _ Hs) as [Hk [_ Hn]].
  split; [| split; [reflexivity|]].
  - apply in_group_keys in Hk. destruct Hk as [l [Hl Hkey]].
    apply frame_zip in Hl. unfold group_key in Hkey. rewrite Hl in Hkey.
    destruct (property_type l); [| discriminate].
    injection Hkey as <-. reflexivity.
  - rewrite Hn. unfold agg_count.
    eapply Nat.le_trans; [apply dropna_length|].
    rewrite length_map. apply filter_length_le.
Qed.

(** X6: the baseline written into a verdict is the baseline stored for the
    listing's segment.  A listing of the frame with a property type finds a
    [group_stats] record of its (zip code, property type, run date) whose
    mean and standard deviation are those of its verdict; a listing without
    a property type belongs to no segment and gets a verdict with a null
    baseline, not flagged. *)
Theorem verdict_baseline_is_the_stored_baseline
        (now : nat -> Z) (zip : string) (db : DB) :
  let stats := groupby_agg sqrtQ (frame zip db) in
  Forall (fun l =>
            match property_type l with
            | Some t =>
                exists g,
                  In g (gs_records sqrtQ now zip db) /\
                  gs_key g = (zip, t, date_of (now 0%nat)) /\
                  gs_mean_ppsq g = v_mean_ppsq (verdict stats l) /\
                  gs_std_ppsq g = v_std_ppsq (verdict stats l)
            | None =>
                v_mean_ppsq (verdict stats l) = None /\
                v_std_ppsq (verdict stats l) = None /\
                v_is_anomaly (verdict stats l) = false /\
                v_anomaly_type (verdict stats l) = None
            end)
         (frame zip db).
Proof.
  intro stats. apply Forall_forall. intros l Hl.
  pose proof (frame_zip _ _ _ Hl) as Hz.
  destruct (property_type l) as [t|] eqn:Ht.
  - assert (group_key l = Some (zip, t)) as Hk
        by (unfold group_key; now rewrite Hz, Ht).
    assert (In (zip, t) (group_keys (frame zip db))) as Hin
        by (apply in_group_keys; now exists l).
    simpl. unfold merged_mu, merged_sigma, merged. rewrite Hk.
    destruct (find (fun s => key_eqb (st_key s) (zip, t)) stats) as [s|] eqn:E.
    + apply find_some in E. destruct E as [Hs Hkey]. apply key_eqb_eq in Hkey.
      exists (gs_record (date_of (now 0%nat)) s). split; [| split; [| split]].
      * unfold gs_records. now apply in_map.
      * unfold gs_key. simpl. now rewrite Hkey.
      * reflexivity.
      * reflexivity.
    + exfalso.
      assert (In (mkStats (zip, t)
                          (agg_mean (map ppsq (filter (in_group (zip, t)) (frame zip db))))
                          (agg_std sqrtQ (map ppsq (filter (in_group (zip, t)) (frame zip db))))
                          (agg_count (map ppsq (filter (in_group (zip, t)) (frame zip db)))))
                 stats) as Hrow.
      { unfold stats, groupby_agg. apply in_map_iff. now exists (zip, t). }
      pose proof (find_none _ _ E _ Hrow) as Hno. simpl in Hno.
      assert (key_eqb (zip, t) (zip, t) = true) as Hyes by now apply key_eqb_eq.
      congruence.
  - simpl. unfold merged_mu, merged_sigma, merged, group_key. rewrite Hz, Ht.
    now destruct (ppsq l).
Qed.
End Segments.

(** ** Groups too small for a standard deviation: what is stored *)

Section SmallGroupsStored.
Import Pandas Time Store Analyze.
Variable sqrtQ : Q -> Q.

(** Every baseline of the batch is in [group_stats] after the run, under
    its key and with its three statistics. *)
Lemma baseline_stored (d : Dialect) (now : nat -> Z) (zip : string) (db : DB)
      (g : GroupStat) :
  In g (gs_records sqrtQ now zip db) ->
  exists x,
    In x (group_stats (analyze_and_store sqrtQ d now zip db)) /\
    gs_key x = gs_key g /\
    gs_mean_ppsq x = gs_mean_ppsq g /\
    gs_std_ppsq x = gs_std_ppsq g /\
    gs_count_listings x = gs_count_listings g.
Proof.
  intro Hg. rewrite analyze_and_store_baselines.
  destruct d; unfold upsert_group_stat, sqlite_group_stats_unique.
  - rewrite insert_only_batch. exists g. split; [| auto].
    apply in_or_app. now right.
  - pose proof (batch_settles gs_key _ gs_key_eqb_eq set_group_stat (fun x => x)
                              (fun _ _ => eq_refl) (fun _ _ => eq_refl)
                              (fun _ _ => eq_refl) set_group_stat_same
                              _ (group_stats db) (gs_records_keys sqrtQ now zip db))
      as Hall.
    destruct (proj1 (Forall_forall _ _) Hall g Hg) as [x [Hx [Hkey Hset]]].
    exists x. split; [exact Hx | split; [exact Hkey|]].
    rewrite <- Hset. simpl. auto.
Qed.

(** Every verdict of the batch is in [listing_analysis] after the run,
    under its listing_id and with its statistical columns. *)
Lemma verdict_stored (d : Dialect) (now : nat -> Z) (zip : string) (db : DB)
      (v : Verdict) :
  NoDup (map listing_id (listings db)) ->
  In v (records sqrtQ zip db) ->
  exists row,
    In row (listing_analysis (analyze_and_store sqrtQ d now zip db)) /\
    la_listing_id row = v_listing_id v /\
    la_price_per_sqft row = v_price_per_sqft v /\
    la_is_anomaly row = v_is_anomaly v /\
    la_anomaly_type row = v_anomaly_type v /\
    la_mean_ppsq row = v_mean_ppsq v /\
    la_std_ppsq row = v_std_ppsq v.
Proof.
  intros Hids Hv. rewrite analyze_and_store_verdicts.
  pose proof (stamp_keys sqrtQ now zip db Hids) as Hk.
  destruct (stamp_in now 1 _ _ Hv) as [i Hi].
  destruct d; unfold upsert_analysis, sqlite_listing_analysis_unique.
  - rewrite (insert_or_replace_batch _ _ String.eqb_eq _ _ Hk).
    exists (new_row v (now i)). split; [apply in_or_app; now right|].
    simpl. repeat split.
  - pose proof (batch_settles la_listing_id _ String.eqb_eq Analyze.set_row (fun x => x)
                              (fun _ _ => eq_refl) (fun _ _ => eq_refl)
                              (fun _ _ => eq_refl) set_row_same
                              _ (listing_analysis db) Hk) as Hall.
    destruct (proj1 (Forall_forall _ _) Hall _ Hi) as [x [Hx [Hkey Hset]]].
    exists x. split; [exact Hx|]. rewrite <- Hset. simpl.
    repeat split. exact Hkey.
Qed.

(** C5: a group with fewer than two members that contribute a
    price-per-area.  After the run [group_stats] holds the baseline of the
    group, under its key and with a null standard deviation, and
    [listing_analysis] holds a verdict for every listing of the group, with
    a null standard deviation, [is_anomaly] false and a null category;
    [flag_row] is total, it raises on no cell. *)
Theorem small_group_is_not_classified
        (d : Dialect) (now : nat -> Z) (zip t : string) (db : DB) (l : Listing) :
  NoDup (map listing_id (listings db)) ->
  In l (frame zip db) ->
  property_type l = Some t ->
  (agg_count (map ppsq (filter (in_group (zip, t)) (frame zip db))) < 2)%nat ->
  let db' := analyze_and_store sqrtQ d now zip db in
  (exists g,
     In g (group_stats db') /\
     gs_key g = (zip, t, date_of (now 0%nat)) /\
     gs_std_ppsq g = None /\
     (gs_count_listings g < 2)%nat) /\
  (exists row,
     In row (listing_analysis db') /\
     la_listing_id row = listing_id l /\
     la_price_per_sqft row = ppsq l /\
     la_std_ppsq row = None /\
     la_is_anomaly row = false /\
     la_anomaly_type row = None).
Proof.
  intros Hids Hl Ht Hsmall db'.
  pose proof (frame_zip _ _ _ Hl) as Hz.
  assert (group_key l = Some (zip, t)) as Hkey
      by (unfold group_key; now rewrite Hz, Ht).
  split.
  - set (xs := map ppsq (filter (in_group (zip, t)) (frame zip db))) in *.
    set (s := mkStats (zip, t) (agg_mean xs) (agg_std sqrtQ xs) (agg_count xs)).
    assert (In (gs_record (date_of (now 0%nat)) s) (gs_records sqrtQ now zip db)) as Hg.
    { unfold gs_records. apply in_map. unfold groupby_agg.
      apply in_map_iff. exists (zip, t). split; [reflexivity|].
      apply in_group_keys. now exists l. }
    destruct (baseline_stored d now zip db _ Hg) as [x [Hx [Hk [_ [Hstd Hn]]]]].
    exists x. split; [exact Hx | split; [exact Hk | split]].
    + rewrite Hstd. simpl. now apply agg_std_small.
    + rewrite Hn. exact Hsmall.
  - assert (in_group (zip, t) l = true) as Hin
        by (unfold in_group; rewrite Hkey; now apply key_eqb_eq).
    assert (In (verdict (groupby_agg sqrtQ (frame zip db)) l) (records sqrtQ zip db))
      as Hv by (unfold records; now apply in_map).
    destruct (verdict_stored d now zip db _ Hids Hv)
      as [row [Hrow [Hid [Hp [Ha [Hc [_ Hs]]]]]]].
    exists row. simpl in Hid, Hp, Ha, Hc, Hs.
    rewrite (merged_sigma_small sqrtQ _ (zip, t) l Hsmall Hin) in Ha, Hc, Hs.
    rewrite flag_row_no_sigma in Ha, Hc.
    repeat split; assumption.
Qed.
End SmallGroupsStored.

Section SmallGroupWitness.
Import Pandas Time Store Examples.

Lemma small_group_is_not_classified_witness :
  let c1 := listing "c1" 300000 1000 (Some 2010) "Condo" "PASS" in
  let db' := Analyze.analyze_and_store Qsqrt sqlite noon zip five_houses in
  (exists g,
     In g (group_stats db') /\
     gs_key g = (zip, "Condo"%string, Time.date_of (noon 0%nat)) /\
     gs_std_ppsq g = None /\
     (gs_count_listings g < 2)%nat) /\
  (exists row,
     In row (listing_analysis db') /\
     la_listing_id row = listing_id c1 /\
     la_price_per_sqft row = Analyze.ppsq c1 /\
     la_std_ppsq row = None /\
     la_is_anomaly row = false /\
     la_anomaly_type row = None).
Proof.
  intro c1.
  apply (@small_group_is_not_classified Qsqrt sqlite noon zip "Condo"%string
                                        five_houses c1).
  - simpl. repeat constructor; simpl; intuition discriminate.
  - vm_compute. tauto.
  - reflexivity.
  - vm_compute. lia.
Defined.
End SmallGroupWitness.

(** ** The model-residual verdict in terms of prices *)

Section ResidualVerdict.
Import Pandas Store AnalyzeML.





(** X9: a listing whose raw prediction is zero or negative is never
    flagged.  [predict_price] clamps the prediction to zero, and
    [calculate_deviation] answers 0 for a predicted price of zero, so the row
    is stored with deviation 0, unflagged, whatever the actual price. *)
Theorem clamped_prediction_is_never_flagged
        (sqrtQ : Q -> Q) (Model : Type)
        (predict : Model -> option Q * option Q * option Q * option Q -> Q)
        (m : Model) (df : list Listing) (l : Listing) :
  predict m (sq_ft l, beds l, baths l, year_built l) <= 0 ->
  let s := scored sqrtQ predict (Some m) df l in
  predict_price predict m l == 0 /\
  sc_deviation_percentage s = Some 0 /\
  sc_is_anomaly s = false /\ sc_anomaly_type s = None.
Proof.
  intros Hraw s.
  assert (predict_price predict m l == 0) as Hp
      by (unfold predict_price; now apply Q.max_r).
  split; [exact Hp|].
  subst s. unfold scored. cbn [sc_deviation_percentage sc_is_anomaly sc_anomaly_type].
  unfold calculate_deviation. apply Qeq_bool_iff in Hp. rewrite Hp.
  repeat split.
Qed.

Lemma clamped_prediction_is_never_flagged_witness :
  let l := Examples.listing "h1" 105000 1000 (Some 2000) "House" "PASS" in
  let s := scored Qsqrt Examples.predict_below_zero (Some tt) [l] l in
  predict_price Examples.predict_below_zero tt l == 0 /\
  sc_deviation_percentage s = Some 0 /\
  sc_is_anomaly s = false /\ sc_anomaly_type s = None.
Proof.
  apply (@clamped_prediction_is_never_flagged
           Qsqrt unit Examples.predict_below_zero tt
           [Examples.listing "h1" 105000 1000 (Some 2000) "House" "PASS"]
           (Examples.listing "h1" 105000 1000 (Some 2000) "House" "PASS")).
  discriminate.
Defined.
End ResidualVerdict.

(** ** Feature preparation *)

Section FeaturePreparation.
Import Pandas Store AnalyzeML.

(** The rows [prepare_features] keeps. *)
Abbreviation structurally_valid :=
  (fun l : Listing => cell_gt (sq_ft l) 0 && cell_gt (price l) 0 && cell_gt (beds l) 0).

(** [prepare_features] in one pass: the kept rows, each column filled with
    the median of that column over the kept rows. *)
Lemma prepare_features_rows (df : list Listing) :
  let kept := filter structurally_valid df in
  prepare_features df
  = map (fun l =>
           mkListing (listing_id l) (price l)
                     (fillna (beds l) (median (map beds kept)))
                     (fillna (baths l) (median (map baths kept)))
                     (sq_ft l)
                     (fillna (year_built l) (median (map year_built kept)))
                     (property_type l) (zip_code l) (dq_status l) (scrape_timestamp l))
        kept.
Proof.
  intro kept. unfold prepare_features. fold kept.
  rewrite !map_map. simpl. reflexivity.
Qed.

Lemma cell_gt_some (c : option Q) (bound : Q) :
  cell_gt c bound = true -> exists x, c = Some x /\ bound < x.
Proof.
  destruct c as [x|]; simpl; [| discriminate].
  intro H. exists x. split; [reflexivity | now apply Qltb_lt].
Qed.

Lemma insert_sorted_length (A : Type) (leb : A -> A -> bool) (x : A) (l : list A) :
  length (insert_sorted leb x l) = S (length l).
Proof.
  induction l as [|h t IH]; simpl; [reflexivity|].
  destruct (leb x h); simpl; [reflexivity | now rewrite IH].
Qed.

Lemma sort_values_length (A : Type) (leb : A -> A -> bool) (l : list A) :
  length (sort_values leb l) = length l.
Proof.
  induction l as [|h t IH]; simpl; [reflexivity|].
  unfold sort_values in *. simpl. now rewrite insert_sorted_length, IH.
Qed.

(** A column with a value has a median. *)
Lemma median_some (xs : list (option Q)) :
  existsb (fun c => negb (isna c)) xs = true -> exists q, median xs = Some q.
Proof.
  intro H. unfold median.
  assert (length (sort_values Qle_bool (dropna xs)) <> 0%nat) as Hlen.
  { rewrite sort_values_length. apply existsb_exists in H.
    destruct H as [c [Hc Hv]]. destruct c as [x|]; [| discriminate].
    clear Hv. induction xs as [|[y|] xs IH]; simpl in *; try contradiction; try lia.
    destruct Hc as [Hc | Hc]; [discriminate | now apply IH]. }
  destruct (sort_values Qle_bool (dropna xs)) as [|v vs]; [now elim Hlen|].
  destruct (Nat.even _); eexists; reflexivity.
Qed.

(** X10: every row that [prepare_features] returns has a positive area,
    a positive price and a positive bedroom count, hence a defined and
    positive price per square foot; rows are dropped, never added. *)
Theorem prepared_rows_are_priced (df : list Listing) :
  (length (prepare_features df) <= length df)%nat /\
  Forall (fun l =>
            cell_gt (sq_ft l) 0 = true /\ cell_gt (price l) 0 = true /\
            cell_gt (beds l) 0 = true /\
            exists q, price_per_sqft l = Some q /\ 0 < q)
         (prepare_features df).
Proof.
  split.
  - rewrite prepare_features_length. apply filter_length_le.
  - rewrite prepare_features_rows. apply Forall_forall. intros l Hl.
    apply in_map_iff in Hl. destruct Hl as [l0 [<- Hl0]].
    apply filter_In in Hl0. destruct Hl0 as [_ Hv].
    rewrite !andb_true_iff in Hv. destruct Hv as [[Ha Hp] Hb].
    destruct (cell_gt_some _ _ Hb) as [b [Eb Hb']].
    destruct (cell_gt_some _ _ Ha) as [a [Ea Ha']].
    destruct (cell_gt_some _ _ Hp) as [p [Ep Hp']].
    unfold price_per_sqft. cbn [sq_ft price beds]. rewrite Eb, Ea, Ep.
    cbn [fillna]. rewrite Ea in Ha. rewrite Ep in Hp. rewrite Eb in Hb.
    split; [exact Ha | split; [exact Hp | split; [exact Hb |]]].
    exists (p / a). split; [reflexivity|].
    apply Qlt_shift_div_l; [exact Ha' | lra].
Qed.

(** X11: imputation leaves no gap in a column that has a value: when some
    kept row has a bathroom count (a construction year), every returned row
    has one, and a row that had a value keeps it. *)
Theorem imputation_fills_the_gaps (df : list Listing) :
  let kept := filter structurally_valid df in
  (existsb (fun l => negb (isna (baths l))) kept = true ->
   Forall (fun l => isna (baths l) = false) (prepare_features df)) /\
  (existsb (fun l => negb (isna (year_built l))) kept = true ->
   Forall (fun l => isna (year_built l) = false) (prepare_features df)) /\
  map (fun l => (listing_id l, price l, sq_ft l, beds l))
      (prepare_features df)
  = map (fun l => (listing_id l, price l, sq_ft l, beds l)) kept /\
  Forall2 (fun l0 l =>
             (isna (baths l0) = false -> baths l = baths l0) /\
             (isna (year_built l0) = false -> year_built l = year_built l0))
          kept (prepare_features df).
Proof.
  intro kept. rewrite prepare_features_rows. fold kept.
  split; [| split; [| split]].
  - intro H.
    assert (exists q, median (map baths kept) = Some q) as [q Hq].
    { apply median_some. rewrite existsb_exists in *.
      destruct H as [l [Hl Hv]]. exists (baths l). split; [now apply in_map | exact Hv]. }
    rewrite Hq. apply Forall_forall. intros l Hl. apply in_map_iff in Hl.
    destruct Hl as [l0 [<- _]]. simpl. now destruct (baths l0).
  - intro H.
    assert (exists q, median (map year_built kept) = Some q) as [q Hq].
    { apply median_some. rewrite existsb_exists in *.
      destruct H as [l [Hl Hv]]. exists (year_built l).
      split; [now apply in_map | exact Hv]. }
    rewrite Hq. apply Forall_forall. intros l Hl. apply in_map_iff in Hl.
    destruct Hl as [l0 [<- _]]. simpl. now destruct (year_built l0).
  - rewrite map_map. apply map_ext_in. intros l Hl. simpl.
    apply filter_In in Hl. destruct Hl as [_ Hv].
    rewrite !andb_true_iff in Hv. destruct Hv as [_ Hb].
    destruct (cell_gt_some _ _ Hb) as [b [-> _]]. reflexivity.
  - generalize (median (map baths kept)) (median (map year_built kept))
               (median (map beds kept)).
    intros mb my mbed. induction kept as [|l0 rest IH]; simpl; constructor; auto.
    simpl. split; intro H.
    + now destruct (baths l0).
    + now destruct (year_built l0).
Qed.
End FeaturePreparation.

Section ImputationWitness.
Import Pandas Store AnalyzeML Examples.

Lemma imputation_fills_the_gaps_witness :
  let df := [listing "h1" 105000 1000 None "House" "PASS";
             with_baths (listing "h2" 97000 1000 (Some 2001) "House" "PASS") None;
             listing "h3" 99000 1000 (Some 2003) "House" "PASS"]%string in
  Forall (fun l => isna (baths l) = false) (prepare_features df) /\
  Forall (fun l => isna (year_built l) = false) (prepare_features df) /\
  map year_built (prepare_features df)
  = [Some ((2001 + 2003) / 2); Some 2001; Some 2003].
Proof.
  intro df.
  destruct (imputation_fills_the_gaps df) as [Hb [Hy _]].
  split; [apply Hb; reflexivity | split; [apply Hy; reflexivity|]].
  vm_compute. reflexivity.
Defined.
End ImputationWitness.

(** ** The summary of a model run *)

Section Summary.
Import Pandas Time Store AnalyzeML ReportText.
Variable sqrtQ : Q -> Q.
Variable Model : Type.
Variable fit : list Listing -> result Model.
Variable predict : Model -> option Q * option Q * option Q * option Q -> Q.

Lemma count_split (A : Type) (f g h : A -> bool) (l : list A) :
  (forall x, In x l -> f x = true -> g x = negb (h x)) ->
  length (filter f l)
  = (length (filter (fun x => f x && g x) l)
     + length (filter (fun x => f x && h x) l))%nat.
Proof.
  induction l as [|a l IH]; intro H; simpl; [reflexivity|].
  assert (forall x, In x l -> f x = true -> g x = negb (h x)) as H'
      by (intros x Hx; apply H; now right).
  specialize (IH H'). pose proof (H a (or_introl eq_refl)) as Ha.
  destruct (f a); simpl; [| exact IH].
  rewrite (Ha eq_refl). destruct (h a); simpl; lia.
Qed.

Lemma disjoint_parts (A : Type) (p q r : A -> bool) (l : list A) :
  (forall x, (p x = false \/ q x = false) /\ (p x || q x = true -> r x = true)) ->
  (length (filter p l) + length (filter q l) <= length (filter r l))%nat.
Proof.
  intro H. induction l as [|a l IH]; simpl; [lia|].
  destruct (H a) as [Hd Hr].
  destruct (p a) eqn:Ep, (q a) eqn:Eq; simpl in Hr.
  - destruct Hd; discriminate.
  - rewrite (Hr eq_refl). simpl. lia.
  - rewrite (Hr eq_refl). simpl. lia.
  - destruct (r a); simpl; lia.
Qed.

(** A flagged record is under-priced or over-priced, not both. *)
Lemma scored_category (model : option Model) (df : list Listing) (l : Listing) :
  sc_is_anomaly (scored sqrtQ predict model df l) = true ->
  opt_string_eqb (sc_anomaly_type (scored sqrtQ predict model df l)) "under-priced"
  = negb (opt_string_eqb (sc_anomaly_type (scored sqrtQ predict model df l))
                         "over-priced").
Proof.
  destruct model as [m|]; simpl; [| discriminate].
  rewrite Qltb_abs. intro H.
  destruct (Qltb DEVIATION_THRESHOLD _); [reflexivity|].
  simpl in H. now rewrite H.
Qed.

Lemma records_counts (model : option Model) (df : list Listing) :
  let recs := records sqrtQ predict model df in
  count_if sc_is_anomaly recs
  = (count_if (fun s => sc_is_anomaly s
                        && opt_string_eqb (sc_anomaly_type s) "under-priced") recs
     + count_if (fun s => sc_is_anomaly s
                          && opt_string_eqb (sc_anomaly_type s) "over-priced") recs)%nat
  /\ (count_if sc_is_anomaly recs <= length df)%nat
  /\ (model = None -> count_if sc_is_anomaly recs = 0%nat).
Proof.
  intro recs. unfold count_if. split; [| split].
  - apply count_split. intros s Hs Hf. unfold recs, records in Hs.
    apply in_map_iff in Hs. destruct Hs as [l [<- _]]. now apply scored_category.
  - eapply Nat.le_trans; [apply filter_length_le|].
    unfold recs, records. now rewrite length_map.
  - intros ->. unfold recs, records.
    assert (forall df0 rows,
               length (filter sc_is_anomaly (map (scored sqrtQ predict None df0) rows))
               = 0%nat) as Hnone
        by (intros df0 rows; induction rows as [|l rows IH]; simpl;
            [reflexivity | exact IH]).
    apply Hnone.
Qed.

(** The summary a run returns, when it returns one. *)
Lemma analyze_and_store_report (d : Dialect) (now : nat -> Z) (zip : string) (db : DB)
      (report : Report) (db' : DB) :
  analyze_and_store sqrtQ fit predict d now zip db = Ok (report, db') ->
  exists model df,
    train_model fit (now 1%nat) zip db = Ok model /\
    df = prepare_features (load_recent_listings (now 2%nat) zip default_days db) /\
    model_trained report = negb (isna model) /\
    dq_failures report = count_dq_failures zip db /\
    total_new_listings report = length df /\
    ml_anomalies report = count_if sc_is_anomaly (records sqrtQ predict model df) /\
    ml_opportunities report
    = count_if (fun s => sc_is_anomaly s
                         && opt_string_eqb (sc_anomaly_type s) "under-priced")
               (records sqrtQ predict model df) /\
    ml_risks report
    = count_if (fun s => sc_is_anomaly s
                         && opt_string_eqb (sc_anomaly_type s) "over-priced")
               (records sqrtQ predict model df).
Proof.
  unfold analyze_and_store.
  destruct (train_model fit (now 1%nat) zip db) as [model | e]; [| discriminate].
  intro H. exists model. eexists. split; [reflexivity | split; [reflexivity|]].
  destruct (load_recent_listings (now 2%nat) zip default_days db) as [|l ls];
    injection H as <- _; simpl; repeat split.
Qed.

(** X12: in every summary the anomalies are the opportunities plus the
    risks and are at most the listings processed; a summary that says no
    model was trained reports no anomaly, no opportunity and no risk. *)
Theorem summary_counts_add_up
        (d : Dialect) (now : nat -> Z) (zip : string) (db : DB)
        (report : Report) (db' : DB) :
  analyze_and_store sqrtQ fit predict d now zip db = Ok (report, db') ->
  ml_anomalies report = (ml_opportunities report + ml_risks report)%nat /\
  (ml_anomalies report <= total_new_listings report)%nat /\
  (model_trained report = false ->
   ml_anomalies report = 0%nat /\ ml_opportunities report = 0%nat
   /\ ml_risks report = 0%nat).
Proof.
  intro H. apply analyze_and_store_report in H.
  destruct H as [model [df [_ [_ [Ht [_ [Hn [Ha [Ho Hr]]]]]]]]].
  destruct (records_counts model df) as [Hsum [Hle Hnone]].
  rewrite Ha, Ho, Hr, Hn. split; [exact Hsum | split; [exact Hle|]].
  intro Hf. rewrite Hf in Ht. destruct model; [discriminate|].
  specialize (Hnone eq_refl). lia.
Qed.

(** X13: the figure "Listings Analyzed by ML" of the text report adds the
    anomalies, the opportunities and the risks of the summary; on a summary
    of the engine it is therefore twice the number of anomalies, and zero
    when no listing is flagged, however many listings were analysed. *)
Theorem listings_analyzed_figure_is_twice_the_anomalies
        (d : Dialect) (now : nat -> Z) (zip : string) (db : DB)
        (report : Report) (db' : DB) :
  analyze_and_store sqrtQ fit predict d now zip db = Ok (report, db') ->
  listings_analyzed_by_ml report = (2 * ml_anomalies report)%nat /\
  (model_trained report = false -> listings_analyzed_by_ml report = 0%nat).
Proof.
  intro H. apply analyze_and_store_report in H.
  destruct H as [model [df [_ [_ [Ht [_ [_ [Ha [Ho Hr]]]]]]]]].
  destruct (records_counts model df) as [Hsum [_ Hnone]].
  unfold listings_analyzed_by_ml. rewrite Ha, Ho, Hr. split; [lia|].
  intro Hf. rewrite Hf in Ht. destruct model; [discriminate|].
  specialize (Hnone eq_refl). lia.
Qed.

(** X14: the listings counted as quality failures and the listings
    processed are disjoint parts of the zip code's listings: their counts
    add up to at most the number of listings stored for the zip code. *)
Theorem summary_population_bound
        (d : Dialect) (now : nat -> Z) (zip : string) (db : DB)
        (report : Report) (db' : DB) :
  analyze_and_store sqrtQ fit predict d now zip db = Ok (report, db') ->
  (total_new_listings report + dq_failures report
   <= length (Analyze.select_zip zip db))%nat.
Proof.
  intro H. apply analyze_and_store_report in H.
  destruct H as [model [df [_ [-> [_ [Hq [Hn _]]]]]]].
  rewrite Hn, Hq, prepare_features_length.
  eapply Nat.le_trans; [apply Nat.add_le_mono_r; apply filter_length_le|].
  unfold load_recent_listings, count_dq_failures, Analyze.select_zip.
  apply disjoint_parts.
  intro l. destruct (opt_string_eqb (zip_code l) zip); simpl; [| auto].
  destruct (dq_status l) as [s|]; simpl.
  - destruct (String.eqb s "PASS"); simpl; rewrite ?andb_false_r; auto.
  - rewrite andb_false_r. auto.
Qed.
End Summary.

Section SummaryWitness.
Import Pandas Time Store AnalyzeML ReportText Examples.

Abbreviation example_run :=
  (analyze_and_store Qsqrt fit_always predict_mean sqlite noon zip five_houses).

Lemma summary_counts_add_up_witness :
  match example_run with
  | Ok (report, _) =>
      ml_anomalies report = (ml_opportunities report + ml_risks report)%nat /\
      (ml_anomalies report <= total_new_listings report)%nat /\
      (model_trained report = false ->
       ml_anomalies report = 0%nat /\ ml_opportunities report = 0%nat
       /\ ml_risks report = 0%nat)
  | Raise _ => False
  end.
Proof.
  destruct example_run as [[report db'] | e] eqn:E.
  - exact (summary_counts_add_up Qsqrt fit_always predict_mean sqlite noon zip
                                 five_houses E).
  - vm_compute in E. discriminate.
Defined.

Lemma listings_analyzed_figure_is_twice_the_anomalies_witness :
  match example_run with
  | Ok (report, _) =>
      listings_analyzed_by_ml report = (2 * ml_anomalies report)%nat /\
      (model_trained report = false -> listings_analyzed_by_ml report = 0%nat)
  | Raise _ => False
  end.
Proof.
  destruct example_run as [[report db'] | e] eqn:E.
  - exact (listings_analyzed_figure_is_twice_the_anomalies
             Qsqrt fit_always predict_mean sqlite noon zip five_houses E).
  - vm_compute in E. discriminate.
Defined.

Lemma summary_population_bound_witness :
  match example_run with
  | Ok (report, _) =>
      (total_new_listings report + dq_failures report
       <= length (Analyze.select_zip zip five_houses))%nat
  | Raise _ => False
  end.
Proof.
  destruct example_run as [[report db'] | e] eqn:E.
  - exact (summary_population_bound Qsqrt fit_always predict_mean sqlite noon zip
                                    five_houses E).
  - vm_compute in E. discriminate.
Defined.
End SummaryWitness.

(** ** The model-residual engine: training population and writes *)

Section ModelWrites.
Import Pandas Time Store AnalyzeML.
Variable sqrtQ : Q -> Q.
Variable Model : Type.
Variable fit : list Listing -> result Model.
Variable predict : Model -> option Q * option Q * option Q * option Q -> Q.

(** Where a prepared row comes from. *)
Lemma prepare_features_from (df : list Listing) (l : Listing) :
  In l (prepare_features df) ->
  exists l0,
    In l0 df /\ listing_id l = listing_id l0 /\ zip_code l = zip_code l0 /\
    dq_status l = dq_status l0 /\ scrape_timestamp l = scrape_timestamp l0 /\
    property_type l = property_type l0 /\ sq_ft l = sq_ft l0 /\ price l = price l0.
Proof.
  rewrite prepare_features_rows. intro H. apply in_map_iff in H.
  destruct H as [l0 [<- Hl0]]. apply filter_In in Hl0.
  exists l0. simpl. tauto.
Qed.

Lemma prepare_features_ids (df : list Listing) :
  NoDup (map listing_id df) -> NoDup (map listing_id (prepare_features df)).
Proof.
  intro H. rewrite prepare_features_rows, map_map. simpl.
  now apply NoDup_keys_filter.
Qed.

Lemma load_recent_listings_in (now_ : Z) (zip : string) (days : Z) (db : DB) (l : Listing) :
  In l (load_recent_listings now_ zip days db) ->
  In l (listings db) /\ zip_code l = Some zip /\ dq_status l = Some "PASS"%string /\
  timestamp_ge db (scrape_timestamp l) (now_ - timedelta_days days) = true.
Proof.
  unfold load_recent_listings. intro H. apply filter_In in H.
  destruct H as [Hin H]. rewrite !andb_true_iff in H. destruct H as [[Hz Ht] Hq].
  unfold opt_string_eqb in *.
  destruct (zip_code l) as [z|]; [| discriminate].
  destruct (dq_status l) as [q|]; [| discriminate].
  apply String.eqb_eq in Hz, Hq. subst. auto.
Qed.

(** X15: a model is only ever fitted on the prepared population of the
    call: when [train_model] returns a model, it is the one [fit] gave on
    that population, which has at least [MIN_TRAIN_SIZE] rows, all of the zip
    code, of quality status PASS, and all found by the store at or after
    the cut-off, 90 days before the call, under the store's own comparison
    of [scrape_timestamp]. *)
Theorem trained_model_population (now_ : Z) (zip : string) (db : DB) (m : Model) :
  train_model fit now_ zip db = Ok (Some m) ->
  let population :=
    prepare_features (load_recent_listings now_ zip default_days db) in
  fit population = Ok m /\
  (MIN_TRAIN_SIZE <= length population)%nat /\
  Forall (fun l => zip_code l = Some zip /\ dq_status l = Some "PASS"%string /\
                   timestamp_ge db (scrape_timestamp l) (now_ - timedelta_days 90) = true)
         population.
Proof.
  clear sqrtQ predict. intros H population.
  assert (Forall (fun l => zip_code l = Some zip /\ dq_status l = Some "PASS"%string /\
                           timestamp_ge db (scrape_timestamp l) (now_ - timedelta_days 90)
                           = true)
                 population) as Hall.
  { apply Forall_forall. intros l Hl. apply prepare_features_from in Hl.
    destruct Hl as [l0 [Hl0 [_ [-> [-> [-> _]]]]]].
    apply load_recent_listings_in in Hl0. tauto. }
  unfold train_model in H. fold population in H.
  destruct (load_recent_listings now_ zip default_days db) as [|l ls]; [discriminate|].
  destruct population as [|x xs] eqn:E; [discriminate|].
  destruct (length (x :: xs) <? MIN_TRAIN_SIZE)%nat eqn:Hlen; [discriminate|].
  apply Nat.ltb_ge in Hlen.
  destruct (fit (x :: xs)) as [m' | e]; [| discriminate].
  injection H as ->. auto.
Qed.

(** The store a run returns, when it returns one. *)
Lemma analyze_and_store_store (d : Dialect) (now : nat -> Z) (zip : string) (db : DB)
      (report : Report) (db' : DB) :
  analyze_and_store sqrtQ fit predict d now zip db = Ok (report, db') ->
  exists model,
    train_model fit (now 1%nat) zip db = Ok model /\
    listings db' = listings db /\
    group_stats db' = group_stats db /\
    listing_analysis db'
    = fold_left (fun tbl row => upsert_analysis d row tbl)
                (stamp now 3
                       (records sqrtQ predict model
                                (prepare_features
                                   (load_recent_listings (now 2%nat) zip default_days db))))
                (listing_analysis db).
Proof.
  unfold analyze_and_store.
  destruct (train_model fit (now 1%nat) zip db) as [model | e]; [| discriminate].
  intro H. exists model. split; [reflexivity|].
  destruct (load_recent_listings (now 2%nat) zip default_days db) as [|l ls];
    injection H as _ <-; simpl; auto.
Qed.

Lemma ml_stamp_ids (now : nat -> Z) (first : nat) (recs : list Scored) :
  map la_listing_id (stamp now first recs) = map sc_listing_id recs.
Proof.
  revert first. induction recs as [|s recs IH]; intro first; simpl; [reflexivity|].
  now rewrite IH.
Qed.

Lemma ml_stamp_unstamped (now now' : nat -> Z) (first first' : nat) (recs : list Scored) :
  map unstamped (stamp now first recs) = map unstamped (stamp now' first' recs).
Proof.
  revert first first'. induction recs as [|s recs IH]; intros first first'; simpl;
    [reflexivity|].
  now rewrite (IH (S first) (S first')).
Qed.

Lemma ml_stamp_in (now : nat -> Z) (first : nat) (recs : list Scored) (s : Scored) :
  In s recs -> exists i, In (scored_row s (now i)) (stamp now first recs).
Proof.
  revert first. induction recs as [|s' recs IH]; intros first Hin; [contradiction|].
  destruct Hin as [-> | Hin].
  - exists first. now left.
  - destruct (IH (S first) Hin) as [i Hi]. exists i. now right.
Qed.

Lemma ml_records_ids (model : option Model) (df : list Listing) :
  map sc_listing_id (records sqrtQ predict model df) = map listing_id df.
Proof.
  unfold records. rewrite map_map. apply map_ext. intro l.
  now destruct model.
Qed.

Lemma population_ids (now_ : Z) (zip : string) (db : DB) :
  NoDup (map listing_id (listings db)) ->
  NoDup (map listing_id
             (prepare_features (load_recent_listings now_ zip default_days db))).
Proof.
  intro H. apply prepare_features_ids. unfold load_recent_listings.
  now apply NoDup_keys_filter.
Qed.

Lemma ml_set_row_same (a : Analysis) : AnalyzeML.set_row a a = a.
Proof. now destruct a. Qed.

(** X16: a run of the model-residual engine writes verdicts and nothing
    else: the listings and the baselines of the store are as before, and a
    stored verdict whose listing is not in the prepared population of the
    run is still there, unchanged. *)
Theorem model_run_writes_verdicts_only
        (d : Dialect) (now : nat -> Z) (zip : string) (db : DB)
        (report : Report) (db' : DB) :
  analyze_and_store sqrtQ fit predict d now zip db = Ok (report, db') ->
  let population :=
    prepare_features (load_recent_listings (now 2%nat) zip default_days db) in
  listings db' = listings db /\
  group_stats db' = group_stats db /\
  Forall (fun row => ~ In (la_listing_id row) (map listing_id population) ->
                     In row (listing_analysis db'))
         (listing_analysis db).
Proof.
  intros H population. apply analyze_and_store_store in H.
  destruct H as [model [_ [Hl [Hg Hv]]]].
  split; [exact Hl | split; [exact Hg|]].
  apply Forall_forall. intros row Hrow Hout. rewrite Hv.
  apply (batch_keeps la_listing_id (fun r t => upsert_analysis d r t)).
  - intros r t Hne Ht. destruct d; simpl.
    + now apply (insert_or_replace_keeps _ _ String.eqb_eq).
    + now apply (on_conflict_do_update_keeps _ _ String.eqb_eq).
  - now rewrite ml_stamp_ids, ml_records_ids.
  - exact Hrow.
Qed.

(** X17: after a run every listing of the prepared population has its
    record in [listing_analysis], column for column, stamped with a reading
    of the run's clock, on either dialect. *)
Theorem model_run_stores_every_record
        (d : Dialect) (now : nat -> Z) (zip : string) (db : DB)
        (report : Report) (db' : DB) (l : Listing) :
  NoDup (map listing_id (listings db)) ->
  analyze_and_store sqrtQ fit predict d now zip db = Ok (report, db') ->
  let population :=
    prepare_features (load_recent_listings (now 2%nat) zip default_days db) in
  In l population ->
  exists model i,
    train_model fit (now 1%nat) zip db = Ok model /\
    In (scored_row (scored sqrtQ predict model population l) (now i))
       (listing_analysis db').
Proof.
  intros Hids H population Hl. apply analyze_and_store_store in H.
  destruct H as [model [Ht [_ [_ Hv]]]]. fold population in Hv.
  assert (NoDup (map la_listing_id
                     (stamp now 3 (records sqrtQ predict model population)))) as Hk.
  { rewrite ml_stamp_ids, ml_records_ids. now apply population_ids. }
  assert (In (scored sqrtQ predict model population l)
             (records sqrtQ predict model population)) as Hs
      by (unfold records; now apply in_map).
  destruct (ml_stamp_in now 3 _ _ Hs) as [i Hi].
  exists model, i. split; [exact Ht|]. rewrite Hv.
  destruct d; unfold upsert_analysis, sqlite_listing_analysis_unique.
  - rewrite (insert_or_replace_batch _ _ String.eqb_eq _ _ Hk).
    apply in_or_app. now right.
  - pose proof (batch_settles la_listing_id _ String.eqb_eq AnalyzeML.set_row
                              (fun x => x)
                              (fun _ _ => eq_refl) (fun _ _ => eq_refl)
                              (fun _ _ => eq_refl) ml_set_row_same
                              _ (listing_analysis db) Hk) as Hall.
    destruct (proj1 (Forall_forall _ _) Hall _ Hi) as [x [Hx [Hkey Hset]]].
    replace (scored_row (scored sqrtQ predict model population l) (now i)) with x;
      [exact Hx|].
    rewrite <- Hset. unfold AnalyzeML.set_row. simpl in *. now rewrite Hkey.
Qed.
End ModelWrites.

(** ** The model-residual engine run again, and the two engines in turn *)

Section ModelRerun.
Import Pandas Time Store AnalyzeML.
Variable sqrtQ : Q -> Q.
Variable Model : Type.
Variable fit : list Listing -> result Model.
Variable predict : Model -> option Q * option Q * option Q * option Q -> Q.

(** [analyze_and_store] in one expression, the empty frame included. *)
Lemma analyze_and_store_run (d : Dialect) (now : nat -> Z) (zip : string) (db : DB) :
  analyze_and_store sqrtQ fit predict d now zip db
  = match train_model fit (now 1%nat) zip db with
    | Raise e => Raise e
    | Ok model =>
        let df := prepare_features
                    (load_recent_listings (now 2%nat) zip default_days db) in
        Ok (summary sqrtQ predict now zip db model df,
            {| listings := listings db;
               group_stats := group_stats db;
               listing_analysis :=
                 fold_left (fun tbl row => upsert_analysis d row tbl)
                           (stamp now 3 (records sqrtQ predict model df))
                           (listing_analysis db);
               timestamp_ge := timestamp_ge db |})
    end.
Proof.
  unfold analyze_and_store.
  destruct (train_model fit (now 1%nat) zip db) as [model | e]; [| reflexivity].
  destruct (load_recent_listings (now 2%nat) zip default_days db) as [|l ls];
    [| reflexivity].
  simpl. now destruct db.
Qed.

Lemma load_recent_listings_listings (now_ : Z) (zip : string) (days : Z) (db db' : DB) :
  listings db' = listings db -> timestamp_ge db' = timestamp_ge db ->
  load_recent_listings now_ zip days db' = load_recent_listings now_ zip days db.
Proof. unfold load_recent_listings. now intros -> ->. Qed.

Lemma unstamped_ml_set_row (a b : Analysis) :
  unstamped (AnalyzeML.set_row a b) = AnalyzeML.set_row (unstamped a) (unstamped b).
Proof. reflexivity. Qed.

(** X18: the model-residual engine run twice on the same populations (no
    listing entered or left the lookback window between the two runs) leaves,
    after the second run, one [listing_analysis] row per listing_id with the
    values of the first run in every column but [analyzed_at], and returns
    the same summary but for its timestamp. *)
Theorem model_rerun_keeps_verdicts
        (d : Dialect) (now1 now2 : nat -> Z) (zip : string) (db : DB)
        (report1 : Report) (db1 : DB) :
  NoDup (map listing_id (listings db)) ->
  NoDup (map la_listing_id (listing_analysis db)) ->
  load_recent_listings (now2 1%nat) zip default_days db
  = load_recent_listings (now1 1%nat) zip default_days db ->
  load_recent_listings (now2 2%nat) zip default_days db
  = load_recent_listings (now1 2%nat) zip default_days db ->
  analyze_and_store sqrtQ fit predict d now1 zip db = Ok (report1, db1) ->
  exists report2 db2,
    analyze_and_store sqrtQ fit predict d now2 zip db1 = Ok (report2, db2) /\
    (model_trained report2, total_new_listings report2, dq_failures report2,
     ml_anomalies report2, ml_opportunities report2, ml_risks report2)
    = (model_trained report1, total_new_listings report1, dq_failures report1,
       ml_anomalies report1, ml_opportunities report1, ml_risks report1) /\
    map unstamped (listing_analysis db2) = map unstamped (listing_analysis db1) /\
    NoDup (map la_listing_id (listing_analysis db2)).
Proof.
  intros Hids Hla Hload1 Hload2 Hrun.
  rewrite analyze_and_store_run in Hrun.
  destruct (train_model fit (now1 1%nat) zip db) as [model | e] eqn:Ht; [| discriminate].
  injection Hrun as <- <-.
  set (df := prepare_features (load_recent_listings (now1 2%nat) zip default_days db)).
  set (tbl1 := fold_left (fun tbl row => upsert_analysis d row tbl)
                         (stamp now1 3 (records sqrtQ predict model df))
                         (listing_analysis db)).
  set (db1 := {| listings := listings db; group_stats := group_stats db;
                 listing_analysis := tbl1; timestamp_ge := timestamp_ge db |}).
  assert (train_model fit (now2 1%nat) zip db1 = Ok model) as Ht2.
  { rewrite <- Ht. unfold train_model.
    rewrite (load_recent_listings_listings _ _ _ db db1 eq_refl eq_refl). now rewrite Hload1. }
  assert (prepare_features (load_recent_listings (now2 2%nat) zip default_days db1) = df)
    as Hdf.
  { unfold df. rewrite (load_recent_listings_listings _ _ _ db db1 eq_refl eq_refl).
    now rewrite Hload2. }
  rewrite analyze_and_store_run, Ht2. cbv zeta. rewrite Hdf.
  eexists. eexists. split; [reflexivity|].
  assert (NoDup (map la_listing_id (stamp now1 3 (records sqrtQ predict model df))))
    as Hk1.
  { rewrite ml_stamp_ids, ml_records_ids. now apply population_ids. }
  assert (map la_listing_id (stamp now2 3 (records sqrtQ predict model df))
          = map la_listing_id (stamp now1 3 (records sqrtQ predict model df)))
    as Hk2 by (now rewrite !ml_stamp_ids).
  pose proof (ml_stamp_unstamped now2 now1 3 3 (records sqrtQ predict model df)) as Hs.
  split; [reflexivity|].
  cbn [listing_analysis]. subst db1 tbl1. cbn [listing_analysis].
  split.
  - destruct d; unfold upsert_analysis, sqlite_listing_analysis_unique.
    + rewrite (insert_or_replace_again _ _ String.eqb_eq _ _ _ Hk1 Hk2).
      rewrite (insert_or_replace_batch _ _ String.eqb_eq _ _ Hk1).
      rewrite !map_app. now rewrite Hs.
    + apply (on_conflict_do_update_again _ _ String.eqb_eq);
        auto using unstamped_ml_set_row, ml_set_row_same.
  - destruct d; unfold upsert_analysis, sqlite_listing_analysis_unique.
    + rewrite (insert_or_replace_again _ _ String.eqb_eq _ _ _ Hk1 Hk2).
      rewrite map_app, Hk2, <- map_app.
      apply (insert_or_replace_batch_keys _ _ String.eqb_eq); assumption.
    + do 2 (apply (batch_keys _ _ String.eqb_eq); auto).
Qed.
End ModelRerun.

Section EnginesInTurn.
Import Pandas Time Store.
Variable sqrtQ : Q -> Q.
Variable Model : Type.
Variable fit : list Listing -> AnalyzeML.result Model.
Variable predict : Model -> option Q * option Q * option Q * option Q -> Q.

(** Every listing the model-residual engine scores is in the frame of the
    statistical engine. *)
Lemma population_in_frame (now_ : Z) (zip : string) (db : DB) (id : string) :
  In id (map listing_id
             (AnalyzeML.prepare_features
                (AnalyzeML.load_recent_listings now_ zip AnalyzeML.default_days db))) ->
  In id (map listing_id (Analyze.frame zip db)).
Proof.
  rewrite prepare_features_rows, map_map. simpl. intro H.
  apply in_map_iff in H. destruct H as [l [<- Hl]].
  apply filter_In in Hl. destruct Hl as [Hl Hv].
  rewrite !andb_true_iff in Hv. destruct Hv as [[Ha _] _].
  unfold AnalyzeML.load_recent_listings in Hl. apply filter_In in Hl.
  destruct Hl as [Hin Hp]. rewrite !andb_true_iff in Hp. destruct Hp as [[Hz _] _].
  apply in_map. unfold Analyze.frame, Analyze.select_zip.
  apply filter_In. split; [| exact Ha]. apply filter_In. now split.
Qed.

(** X19: on SQLite a statistical run after a model run erases what the
    model run stored about every listing it scored: the statistical engine
    rewrites the verdict of each of them with [INSERT OR REPLACE], so their
    [predicted_price], [deviation_percentage] and [dq_status] are null
    afterwards. *)
Theorem statistical_run_erases_model_results
        (d : Dialect) (now now' : nat -> Z) (zip : string) (db : DB)
        (report : AnalyzeML.Report) (db1 : DB) :
  NoDup (map listing_id (listings db)) ->
  AnalyzeML.analyze_and_store sqrtQ fit predict d now zip db = AnalyzeML.Ok (report, db1) ->
  let population :=
    AnalyzeML.prepare_features
      (AnalyzeML.load_recent_listings (now 2%nat) zip AnalyzeML.default_days db) in
  Forall (fun row =>
            In (la_listing_id row) (map listing_id population) ->
            la_predicted_price row = None /\
            la_deviation_percentage row = None /\
            la_dq_status row = None)
         (listing_analysis (Analyze.analyze_and_store sqrtQ sqlite now' zip db1)).
Proof.
  intros Hids Hrun population.
  apply analyze_and_store_store in Hrun. destruct Hrun as [_ [_ [Hl [_ _]]]].
  assert (NoDup (map listing_id (listings db1))) as Hids1 by (now rewrite Hl).
  rewrite analyze_and_store_verdicts.
  pose proof (stamp_keys sqrtQ now' zip db1 Hids1) as Hk.
  unfold Analyze.upsert_analysis, sqlite_listing_analysis_unique.
  rewrite (insert_or_replace_batch _ _ String.eqb_eq _ _ Hk).
  apply Forall_forall. intros row Hrow Hid.
  apply population_in_frame in Hid.
  replace (Analyze.frame zip db) with (Analyze.frame zip db1) in Hid
    by (unfold Analyze.frame, Analyze.select_zip; now rewrite Hl).
  apply in_app_or in Hrow. destruct Hrow as [Hrow | Hrow].
  - apply filter_In in Hrow. destruct Hrow as [_ Hrow].
    apply negb_true_iff in Hrow.
    apply (replaces_false _ _ String.eqb_eq) in Hrow.
    rewrite stamp_ids, records_ids in Hrow. contradiction.
  - apply stamp_rows in Hrow. destruct Hrow as [v [i [_ ->]]]. simpl. auto.
Qed.
End EnginesInTurn.

(** ** The further properties on the example stores *)

Section FurtherWitnesses.
Import Pandas Time Store Examples.

Abbreviation h1 := (listing "h1" 105000 1000 (Some 2000) "House" "PASS").

Abbreviation old_verdict :=
  (Analyze.new_row (Analyze.mkVerdict "gone" (Some 90) false None (Some 95) (Some 4)) 7).

Abbreviation five_houses_with_old_verdict :=
  {| listings := listings five_houses;
     group_stats := [];
     listing_analysis := [old_verdict];
     timestamp_ge := timestamp_ge five_houses |}.

Lemma five_houses_ids : NoDup (map listing_id (listings five_houses)).
Proof. simpl. repeat constructor; simpl; intuition discriminate. Qed.

Lemma verdicts_outside_the_run_are_kept_witness :
  In old_verdict
     (listing_analysis
        (Analyze.analyze_and_store Qsqrt sqlite noon zip five_houses_with_old_verdict)).
Proof.
  apply (verdicts_outside_the_run_are_kept
           Qsqrt sqlite noon zip five_houses_with_old_verdict).
  - now left.
  - simpl. intuition discriminate.
Defined.

Lemma every_listing_of_the_frame_has_its_verdict_witness :
  let stats := Analyze.groupby_agg Qsqrt (Analyze.frame zip five_houses) in
  exists row,
    In row (listing_analysis
              (Analyze.analyze_and_store Qsqrt postgresql noon zip five_houses)) /\
    la_listing_id row = listing_id h1 /\
    la_price_per_sqft row = Analyze.ppsq h1 /\
    (la_is_anomaly row, la_anomaly_type row)
    = Analyze.flag_row (Analyze.ppsq h1) (Analyze.merged_mu stats h1)
                       (Analyze.merged_sigma stats h1) /\
    la_mean_ppsq row = Analyze.merged_mu stats h1 /\
    la_std_ppsq row = Analyze.merged_sigma stats h1.
Proof.
  apply (every_listing_of_the_frame_has_its_verdict
           Qsqrt postgresql noon zip five_houses h1 five_houses_ids).
  vm_compute. now left.
Defined.

Lemma sqlite_run_blanks_model_columns_witness :
  Forall (fun row =>
            In (la_listing_id row) (map listing_id (Analyze.frame zip five_houses)) ->
            la_predicted_price row = None /\
            la_deviation_percentage row = None /\
            la_dq_status row = None)
         (listing_analysis (Analyze.analyze_and_store Qsqrt sqlite noon zip five_houses)).
Proof.
  exact (sqlite_run_blanks_model_columns Qsqrt noon zip five_houses five_houses_ids).
Defined.

Lemma trained_model_population_witness :
  let population :=
    AnalyzeML.prepare_features
      (AnalyzeML.load_recent_listings (noon 1) zip AnalyzeML.default_days
                                      (Examples.population 500 (Some 2000))) in
  fit_always population = AnalyzeML.Ok tt /\
  (AnalyzeML.MIN_TRAIN_SIZE <= length population)%nat /\
  Forall (fun l => zip_code l = Some zip /\ dq_status l = Some "PASS"%string /\
                   timestamp_ge (Examples.population 500 (Some 2000))
                                (scrape_timestamp l) (noon 1 - timedelta_days 90) = true)
         population.
Proof.
  apply (@trained_model_population unit fit_always (noon 1) zip
                                   (Examples.population 500 (Some 2000)) tt).
  vm_compute. reflexivity.
Defined.

Abbreviation model_run :=
  (AnalyzeML.analyze_and_store Qsqrt fit_always predict_mean postgresql noon zip
                               five_houses_with_old_verdict).

Lemma model_run_writes_verdicts_only_witness :
  match model_run with
  | AnalyzeML.Ok (_, db') =>
      listings db' = listings five_houses /\
      group_stats db' = [] /\
      In old_verdict (listing_analysis db')
  | AnalyzeML.Raise _ => False
  end.
Proof.
  destruct model_run as [[report db'] | e] eqn:E.
  - destruct (model_run_writes_verdicts_only
                Qsqrt fit_always predict_mean postgresql noon zip
                five_houses_with_old_verdict E) as [Hl [Hg Hv]].
    split; [exact Hl | split; [exact Hg|]].
    apply (proj1 (Forall_forall _ _) Hv old_verdict); [now left|].
    vm_compute. intuition discriminate.
  - vm_compute in E. discriminate.
Defined.

Lemma model_run_stores_every_record_witness :
  match model_run with
  | AnalyzeML.Ok (_, db') =>
      exists model i,
        AnalyzeML.train_model fit_always (noon 1) zip five_houses_with_old_verdict
        = AnalyzeML.Ok model /\
        In (AnalyzeML.scored_row
              (AnalyzeML.scored
                 Qsqrt predict_mean model
                 (AnalyzeML.prepare_features
                    (AnalyzeML.load_recent_listings
                       (noon 2) zip AnalyzeML.default_days five_houses_with_old_verdict))
                 h1)
              (noon i))
           (listing_analysis db')
  | AnalyzeML.Raise _ => False
  end.
Proof.
  destruct model_run as [[report db'] | e] eqn:E.
  - apply (model_run_stores_every_record
             Qsqrt fit_always predict_mean postgresql noon zip
             five_houses_with_old_verdict h1 five_houses_ids E).
    vm_compute. now left.
  - vm_compute in E. discriminate.
Defined.

Lemma model_rerun_keeps_verdicts_witness :
  match model_run with
  | AnalyzeML.Ok (report1, db1) =>
      exists report2 db2,
        AnalyzeML.analyze_and_store Qsqrt fit_always predict_mean postgresql evening zip db1
        = AnalyzeML.Ok (report2, db2) /\
        (AnalyzeML.model_trained report2, AnalyzeML.total_new_listings report2,
         AnalyzeML.dq_failures report2, AnalyzeML.ml_anomalies report2,
         AnalyzeML.ml_opportunities report2, AnalyzeML.ml_risks report2)
        = (AnalyzeML.model_trained report1, AnalyzeML.total_new_listings report1,
           AnalyzeML.dq_failures report1, AnalyzeML.ml_anomalies report1,
           AnalyzeML.ml_opportunities report1, AnalyzeML.ml_risks report1) /\
        map unstamped (listing_analysis db2) = map unstamped (listing_analysis db1) /\
        NoDup (map la_listing_id (listing_analysis db2))
  | AnalyzeML.Raise _ => False
  end.
Proof.
  destruct model_run as [[report1 db1] | e] eqn:E.
  - apply (model_rerun_keeps_verdicts
             Qsqrt fit_always predict_mean postgresql noon evening zip
             five_houses_with_old_verdict five_houses_ids).
    + simpl. repeat constructor. simpl. tauto.
    + reflexivity.
    + reflexivity.
    + exact E.
  - vm_compute in E. discriminate.
Defined.

Lemma statistical_run_erases_model_results_witness :
  match model_run with
  | AnalyzeML.Ok (_, db1) =>
      Forall (fun row =>
                In (la_listing_id row)
                   (map listing_id
                        (AnalyzeML.prepare_features
                           (AnalyzeML.load_recent_listings
                              (noon 2) zip AnalyzeML.default_days
                              five_houses_with_old_verdict))) ->
                la_predicted_price row = None /\
                la_deviation_percentage row = None /\
                la_dq_status row = None)
             (listing_analysis (Analyze.analyze_and_store Qsqrt sqlite evening zip db1))
  | AnalyzeML.Raise _ => False
  end.
Proof.
  destruct model_run as [[report db1] | e] eqn:E.
  - exact (statistical_run_erases_model_results
             Qsqrt fit_always predict_mean postgresql noon evening zip
             five_houses_with_old_verdict five_houses_ids E).
  - vm_compute in E. discriminate.
Defined.
End FurtherWitnesses.


(** ** The columns the statistical engine reads *)

Section ColumnsRead.
Import Pandas Time Store Analyze.
Variable sqrtQ : Q -> Q.

Lemma group_keys_read_columns (df : list Listing) :
  group_keys (map read_columns df) = group_keys df.
Proof.
  induction df as [|l df IH]; simpl; [reflexivity|]. now rewrite IH.
Qed.

Lemma groupby_agg_read_columns (df : list Listing) :
  groupby_agg sqrtQ (map read_columns df) = groupby_agg sqrtQ df.
Proof.
  unfold groupby_agg. rewrite group_keys_read_columns.
  apply map_ext. intro k. rewrite filter_map_swap, map_map. reflexivity.
Qed.

Lemma frame_read_columns (zip : string) (rows : list Listing) (ge : Z -> Z -> bool) :
  frame zip (mkDB (map read_columns rows) [] [] ge)
  = map read_columns (frame zip (mkDB rows [] [] ge)).
Proof.
  unfold frame, select_zip. simpl. now rewrite !filter_map_swap.
Qed.

Lemma run_reads_columns (now : nat -> Z) (zip : string) (db : DB) :
  gs_records sqrtQ now zip db
  = gs_records sqrtQ now zip (mkDB (map read_columns (listings db)) [] [] (timestamp_ge db)) /\
  records sqrtQ zip db
  = records sqrtQ zip (mkDB (map read_columns (listings db)) [] [] (timestamp_ge db)).
Proof.
  unfold gs_records, records.
  rewrite frame_read_columns, groupby_agg_read_columns.
  replace (frame zip (mkDB (listings db) [] [] (timestamp_ge db))) with (frame zip db) by reflexivity.
  split; [reflexivity|]. rewrite map_map. reflexivity.
Qed.

(** X20: the statistical engine reads five columns of a listing:
    listing_id, price, sq_ft, zip_code and property_type.  Two stores whose
    listings agree on these get the same baselines and the same verdicts
    from a run; in particular neither the age of a listing (there is no
    lookback window) nor its quality status has any effect. *)
Theorem statistical_run_reads_five_columns
        (now : nat -> Z) (zip : string) (db db' : DB) :
  map (fun l => (listing_id l, price l, sq_ft l, zip_code l, property_type l))
      (listings db)
  = map (fun l => (listing_id l, price l, sq_ft l, zip_code l, property_type l))
        (listings db') ->
  gs_records sqrtQ now zip db = gs_records sqrtQ now zip db' /\
  records sqrtQ zip db = records sqrtQ zip db'.
Proof.
  intro H.
  assert (map read_columns (listings db) = map read_columns (listings db')) as Hc.
  { revert H. generalize (listings db') as rows'. generalize (listings db) as rows.
    induction rows as [|l rows IH]; intros [|l' rows'] H; simpl in *;
      try discriminate; [reflexivity|].
    injection H as Hid Hp Ha Hz Ht Hrest. unfold read_columns at 1 3.
    now rewrite Hid, Hp, Ha, Hz, Ht, (IH _ Hrest). }
  destruct (run_reads_columns now zip db) as [Hg Hr].
  destruct (run_reads_columns now zip db') as [Hg' Hr'].
  rewrite Hg, Hr, Hg', Hr', Hc. split; reflexivity.
Qed.
End ColumnsRead.

Section ColumnsReadWitness.
Import Pandas Time Store Examples.

Lemma statistical_run_reads_five_columns_witness :
  let aged :=
    store (map (fun l => mkListing (listing_id l) (price l) (beds l) (baths l) (sq_ft l)
                                   (year_built l) (property_type l) (zip_code l)
                                   (Some "Missing address"%string) 0)
               (listings five_houses)) in
  Analyze.gs_records Qsqrt noon zip five_houses = Analyze.gs_records Qsqrt noon zip aged /\
  Analyze.records Qsqrt zip five_houses = Analyze.records Qsqrt zip aged.
Proof.
  apply (statistical_run_reads_five_columns Qsqrt noon zip five_houses). reflexivity.
Defined.
End ColumnsReadWitness.
